(** * apertools.los: line-of-sight / ENU geometry

    A shallow embedding of [apertools/los.py] and of the fragment of numpy it
    calls, followed by the properties of the LOS/ENU subsystem.

    Numbers.  The program computes with IEEE float64.  The embedding keeps the
    special values of float64 ([nan], [+inf], [-inf]) and the way numpy
    propagates them, but idealises every finite float as a real number:
    rounding, overflow and signed zeros are not modelled.  All statements
    below are therefore statements in exact arithmetic. *)

From Stdlib Require Import String.
From Stdlib Require Import Reals Lra Lia List ZArith Bool Permutation Sorted.
Import ListNotations.

(* ================================================================== *)
(** * Part I: definitions                                              *)
(* ================================================================== *)

(** ** Exceptions and results *)

Inductive exn : Type :=
| ValueError      (* shape errors of numpy, failed tuple unpacking *)
| TypeError       (* arithmetic on [None] *)
| AssertionError  (* a failed [assert] *)
| LinAlgError     (* numpy.linalg.LinAlgError("Singular matrix") *)
| IndexError
| OSError         (* a file that cannot be opened *)
| Unmodelled.     (* operands outside the modelled fragment of numpy
                     (arrays of rank three or more in [matmul]/[dot]) *)

Inductive result (A : Type) : Type :=
| Ok (a : A)
| Raise (e : exn).
Arguments Ok {A} a.
Arguments Raise {A} e.

Definition bind {A B : Type} (m : result A) (k : A -> result B) : result B :=
  match m with
  | Ok a => k a
  | Raise e => Raise e
  end.

Notation "x <- m ;; k" := (bind m (fun x => k))
  (at level 61, m at next level, right associativity).

(** ** float64 with its special values *)

Module Float.

Inductive npfloat : Type :=
| Fin (r : R)
| Inf (negative : bool)
| NaN.

Definition Rneg (r : R) : bool := if Rlt_dec r 0 then true else false.
Definition Rzero (r : R) : bool := if Req_dec_T r 0 then true else false.

Definition fopp (x : npfloat) : npfloat :=
  match x with
  | Fin r => Fin (- r)
  | Inf s => Inf (negb s)
  | NaN => NaN
  end.

Definition fadd (x y : npfloat) : npfloat :=
  match x, y with
  | Fin a, Fin b => Fin (a + b)
  | NaN, _ | _, NaN => NaN
  | Inf s, Inf t => if Bool.eqb s t then Inf s else NaN
  | Inf s, Fin _ => Inf s
  | Fin _, Inf t => Inf t
  end.

Definition fsub (x y : npfloat) : npfloat := fadd x (fopp y).

Definition fmul (x y : npfloat) : npfloat :=
  match x, y with
  | Fin a, Fin b => Fin (a * b)
  | NaN, _ | _, NaN => NaN
  | Inf s, Inf t => Inf (xorb s t)
  | Inf s, Fin b => if Rzero b then NaN else Inf (xorb s (Rneg b))
  | Fin a, Inf t => if Rzero a then NaN else Inf (xorb (Rneg a) t)
  end.

(** Division the way numpy's [true_divide] does it on float64: dividing by
    zero raises nothing, it yields [nan] (for 0/0) or an infinity.  A zero
    divisor is taken as +0. *)
Definition fdiv (x y : npfloat) : npfloat :=
  match x, y with
  | NaN, _ | _, NaN => NaN
  | Fin a, Fin b =>
      if Rzero b then (if Rzero a then NaN else Inf (Rneg a))
      else Fin (a / b)
  | Fin _, Inf _ => Fin 0
  | Inf s, Fin b => Inf (xorb s (Rneg b))
  | Inf _, Inf _ => NaN
  end.

Definition fcos (x : npfloat) : npfloat :=
  match x with Fin r => Fin (cos r) | _ => NaN end.

Definition fsin (x : npfloat) : npfloat :=
  match x with Fin r => Fin (sin r) | _ => NaN end.

Definition fsqrt (x : npfloat) : npfloat :=
  match x with
  | Fin r => if Rneg r then NaN else Fin (sqrt r)
  | Inf false => Inf false
  | _ => NaN
  end.

(** [x == 0.0]; false on [nan] and on the infinities. *)
Definition fis_zero (x : npfloat) : bool :=
  match x with Fin r => Rzero r | _ => false end.

(** [abs(x) > abs(y)]; every comparison with [nan] is false. *)
Definition fabs_gtb (x y : npfloat) : bool :=
  match x, y with
  | NaN, _ | _, NaN => false
  | Inf _, Inf _ => false
  | Inf _, Fin _ => true
  | Fin _, Inf _ => false
  | Fin a, Fin b => if Rlt_dec (Rabs b) (Rabs a) then true else false
  end.

Definition is_finite (x : npfloat) : Prop :=
  match x with Fin _ => True | _ => False end.

(** Accumulation of a sum, left to right from 0. *)
Definition fsum (l : list npfloat) : npfloat := fold_left fadd l (Fin 0).

(** [np.deg2rad]: multiplication by pi/180. *)
Definition deg2rad (x : npfloat) : npfloat := fmul x (Fin (PI / 180)).

End Float.
Export Float.

(** ** numpy arrays

    An array is its shape and its elements in C (row-major) order, which is
    how a contiguous [ndarray] is stored. *)

Record ndarray : Type := mk_array { shape : list nat; data : list npfloat }.

Definition size_of (sh : list nat) : nat := fold_right Nat.mul 1%nat sh.

Definition well_formed (a : ndarray) : Prop :=
  length (data a) = size_of (shape a).

(** An array of finite numbers. *)
Definition of_reals (sh : list nat) (v : list R) : ndarray :=
  mk_array sh (map Fin v).

Definition shape_eqb (s t : list nat) : bool :=
  if list_eq_dec Nat.eq_dec s t then true else false.

Module Np.

(** [n] rows of [k] entries, entry [(i, j)] being [f i j], flattened. *)
Definition tabulate2 {A : Type} (n k : nat) (f : nat -> nat -> A) : list A :=
  flat_map (fun i => map (f i) (seq 0 k)) (seq 0 n).

(** [a[i]] of a 1-D array and [a[i, j]] of a 2-D array with [ncols] columns. *)
Definition item1 (d : list npfloat) (i : nat) : npfloat := nth i d NaN.
Definition item2 (ncols : nat) (d : list npfloat) (i j : nat) : npfloat :=
  nth (i * ncols + j) d NaN.

(** [np.eye(n)] *)
Definition eye (n : nat) : ndarray :=
  mk_array [n; n] (tabulate2 n n (fun i j => if Nat.eqb i j then Fin 1 else Fin 0)).

Fixpoint list_set {A : Type} (l : list A) (i : nat) (v : A) : list A :=
  match l, i with
  | [], _ => []
  | _ :: t, O => v :: t
  | h :: t, S i' => h :: list_set t i' v
  end.

(** [a[i, j] = v] on a 2-D array; an index out of range raises IndexError. *)
Definition setitem2 (a : ndarray) (i j : nat) (v : npfloat) : result ndarray :=
  match shape a with
  | [n; m] =>
      if (i <? n)%nat && (j <? m)%nat
      then Ok (mk_array [n; m] (list_set (data a) (i * m + j) v))
      else Raise IndexError
  | _ => Raise IndexError
  end.

(** Sum over [t < m] of [f t * g t]. *)
Definition sum_prod (m : nat) (f g : nat -> npfloat) : npfloat :=
  fsum (map (fun t => fmul (f t) (g t)) (seq 0 m)).

(** [np.matmul(a, b)] for operands of rank one and two: the matrix product,
    a vector operand being promoted to a row (left) or a column (right).
    Scalars are refused, as numpy does. *)
Definition matmul (a b : ndarray) : result ndarray :=
  match shape a, shape b with
  | [m], [m'] =>
      if Nat.eqb m m'
      then Ok (mk_array [] [sum_prod m (item1 (data a)) (item1 (data b))])
      else Raise ValueError
  | [m], [m'; k] =>
      if Nat.eqb m m'
      then Ok (mk_array [k]
                 (map (fun j => sum_prod m (item1 (data a))
                                          (fun t => item2 k (data b) t j))
                      (seq 0 k)))
      else Raise ValueError
  | [n; m], [m'] =>
      if Nat.eqb m m'
      then Ok (mk_array [n]
                 (map (fun i => sum_prod m (item2 m (data a) i) (item1 (data b)))
                      (seq 0 n)))
      else Raise ValueError
  | [n; m], [m'; k] =>
      if Nat.eqb m m'
      then Ok (mk_array [n; k]
                 (tabulate2 n k
                    (fun i j => sum_prod m (item2 m (data a) i)
                                           (fun t => item2 k (data b) t j))))
      else Raise ValueError
  | [], _ | _, [] => Raise ValueError
  | _, _ => Raise Unmodelled
  end.

(** [np.dot(a, b)]: as [matmul] on ranks one and two; a rank-zero operand
    multiplies the other one elementwise. *)
Definition dot (a b : ndarray) : result ndarray :=
  match shape a, shape b with
  | [], _ => Ok (mk_array (shape b) (map (fmul (item1 (data a) 0)) (data b)))
  | _, [] => Ok (mk_array (shape a) (map (fun x => fmul x (item1 (data b) 0)) (data a)))
  | _, _ => matmul a b
  end.

(** [np.linalg.norm(x)] with the default order: the 2-norm of the
    flattened array, [sqrt(dot(x, x))]. *)
Definition linalg_norm (a : ndarray) : npfloat :=
  fsqrt (fsum (map (fun x => fmul x x) (data a))).

(** [a / s] for an array and a float: elementwise [true_divide]. *)
Definition divide_scalar (a : ndarray) (s : npfloat) : ndarray :=
  mk_array (shape a) (map (fun x => fdiv x s) (data a)).

End Np.

(** ** los.py: rotations *)

(** [rot(angle, axis, in_degrees)] *)
Definition rot (angle : npfloat) (axis : Z) (in_degrees : bool) : result ndarray :=
  let R0 := Np.eye 3 in
  let angle := if in_degrees then deg2rad angle else angle in
  let cang := fcos angle in
  let sang := fsin angle in
  if (axis =? 1)%Z then
    R1 <- Np.setitem2 R0 1 1 cang ;;
    R2 <- Np.setitem2 R1 2 2 cang ;;
    R3 <- Np.setitem2 R2 1 2 sang ;;
    Np.setitem2 R3 2 1 (fopp sang)
  else if (axis =? 2)%Z then
    R1 <- Np.setitem2 R0 0 0 cang ;;
    R2 <- Np.setitem2 R1 2 2 cang ;;
    R3 <- Np.setitem2 R2 0 2 (fopp sang) ;;
    Np.setitem2 R3 2 0 sang
  else if (axis =? 3)%Z then
    R1 <- Np.setitem2 R0 0 0 cang ;;
    R2 <- Np.setitem2 R1 1 1 cang ;;
    R3 <- Np.setitem2 R2 1 0 (fopp sang) ;;
    Np.setitem2 R3 0 1 sang
  else Raise ValueError.

(** [rotate_xyz_to_enu(xyz, lat, lon)] *)
Definition rotate_xyz_to_enu (xyz : ndarray) (lat lon : npfloat) : result ndarray :=
  R3 <- rot (fadd (Fin 90) lon) 3 true ;;
  R1 <- rot (fsub (Fin 90) lat) 1 true ;;
  t <- Np.matmul R3 xyz ;;
  Np.matmul R1 t.

(** ** Real 3x3 matrices, for stating the properties

    A real matrix is the list of its entries in row-major order, like the
    [data] of an array. *)

Definition rentry (ncols : nat) (m : list R) (i j : nat) : R :=
  nth (i * ncols + j) m 0%R.

Definition rsum3 (f : nat -> R) : R := (f 0%nat + f 1%nat + f 2%nat)%R.

Definition rmat_mul (a b : list R) : list R :=
  Np.tabulate2 3 3 (fun i j => rsum3 (fun t => rentry 3 a i t * rentry 3 b t j)%R).

Definition rtranspose (m : list R) : list R :=
  Np.tabulate2 3 3 (fun i j => rentry 3 m j i).

Definition ridentity : list R := [1; 0; 0; 0; 1; 0; 0; 0; 1]%R.

Definition orthogonal (m : list R) : Prop :=
  rmat_mul (rtranspose m) m = ridentity /\ rmat_mul m (rtranspose m) = ridentity.

Definition det3 (m : list R) : R :=
  let e := fun i j : nat => rentry 3 m i j in
  let a := e 0%nat 0%nat in let b := e 0%nat 1%nat in let c := e 0%nat 2%nat in
  let d := e 1%nat 0%nat in let f := e 1%nat 1%nat in let g := e 1%nat 2%nat in
  let h := e 2%nat 0%nat in let i := e 2%nat 1%nat in let j := e 2%nat 2%nat in
  (a * (f * j - g * i) - b * (d * j - g * h) + c * (d * i - f * h))%R.

(** The angle handed to [cos] and [sin], in radians. *)
Definition radians (theta : R) (in_degrees : bool) : R :=
  if in_degrees then (theta * (PI / 180))%R else theta.

(** A 3x3 matrix applied to a 3-vector, and to the [k] columns of a
    [(3, k)] batch. *)
Definition rmat_vec (p v : list R) : list R :=
  map (fun i => rsum3 (fun t => rentry 3 p i t * nth t v 0)%R) (seq 0 3).

Definition rmat_batch (p : list R) (k : nat) (v : list R) : list R :=
  Np.tabulate2 3 k (fun i j => rsum3 (fun t => rentry 3 p i t * rentry k v t j)%R).

(** The single-axis rotation matrices in closed form (angle in radians):
    the layout of section 4.1 of the specification, against which [rot] is
    compared. *)
Definition axis_rotation (axis : Z) (t : R) : list R :=
  if (axis =? 1)%Z then [1; 0; 0; 0; cos t; sin t; 0; - sin t; cos t]%R
  else if (axis =? 2)%Z then [cos t; 0; - sin t; 0; 1; 0; sin t; 0; cos t]%R
  else [cos t; sin t; 0; - sin t; cos t; 0; 0; 0; 1]%R.

(** ** los.py: projection onto the line of sight *)

(** [project_enu_to_los(enu, los_vec=None, lat=None, lon=None, enu_coeffs=None)].
    With [enu_coeffs] absent the coefficients come from [los_vec / norm];
    arithmetic on an argument left at [None] is a TypeError. *)
Definition project_enu_to_los (enu : ndarray) (los_vec : option ndarray)
    (lat lon : option npfloat) (enu_coeffs : option ndarray) : result ndarray :=
  coeffs <-
    match enu_coeffs with
    | Some c => Ok c
    | None =>
        match los_vec with
        | None => Raise TypeError
        | Some lv =>
            let los_hat := Np.divide_scalar lv (Np.linalg_norm lv) in
            match lat, lon with
            | Some la, Some lo => rotate_xyz_to_enu los_hat la lo
            | _, _ => Raise TypeError
            end
        end
    end ;;
  Np.dot coeffs enu.

(** The Euclidean norm of a real vector, and the real dot product with a
    3-vector of coefficients. *)
Definition sum_squares (v : list R) : R :=
  fold_left (fun acc x => acc + x * x)%R v 0%R.

Definition euclid_norm (v : list R) : R := sqrt (sum_squares v).

Definition rdot3 (c e : list R) : R := rsum3 (fun t => nth t c 0 * nth t e 0)%R.

Definition rdot3_batch (c : list R) (k : nat) (e : list R) : list R :=
  map (fun j => rsum3 (fun t => nth t c 0 * rentry k e t j)%R) (seq 0 k).

(** ** los.py: batch conversion *)

Fixpoint mapM {A B : Type} (f : A -> result B) (l : list A) : result (list B) :=
  match l with
  | [] => Ok []
  | x :: t => y <- f x ;; ys <- mapM f t ;; Ok (y :: ys)
  end.

(** [np.array(rows)] on a list of arrays: equally shaped rows are stacked
    along a new first axis, the empty list gives shape (0,), rows of
    different shapes are refused. *)
Definition np_array (rows : list ndarray) : result ndarray :=
  match rows with
  | [] => Ok (mk_array [0%nat] [])
  | a :: t =>
      if forallb (fun b => shape_eqb (shape b) (shape a)) t
      then Ok (mk_array (length rows :: shape a) (concat (map data rows)))
      else Raise ValueError
  end.

(** [convert_xyz_latlon_to_enu(lat_lons, xyz_array)]; [combine] is Python's
    [zip], which stops at the end of the shorter sequence. *)
Definition convert_xyz_latlon_to_enu (lat_lons : list (npfloat * npfloat))
    (xyz_array : list ndarray) : result ndarray :=
  rows <- mapM (fun p : (npfloat * npfloat) * ndarray =>
                  let '((lat, lon), xyz) := p in rotate_xyz_to_enu xyz lat lon)
               (combine lat_lons xyz_array) ;;
  np_array rows.

(** [los_to_enu(los_file=None, lat_lons=None, xyz_los_vecs=None)] *)
Definition los_to_enu (los_file : option string)
    (lat_lons : option (list (npfloat * npfloat)))
    (xyz_los_vecs : option (list ndarray)) : result ndarray :=
  match lat_lons, xyz_los_vecs with
  | Some ll, Some xs => convert_xyz_latlon_to_enu ll xs
  | _, _ => Raise TypeError
  end.

(** The rotation of [rotate_xyz_to_enu] on real numbers. *)
Definition enu_rotation (lat lon : R) : list R :=
  rmat_mul (axis_rotation 1 (radians (90 - lat) true))
           (axis_rotation 3 (radians (90 + lon) true)).

(** Finite points and the rotated row of one (point, vector) pair. *)
Definition finite_point (p : R * R) : npfloat * npfloat := (Fin (fst p), Fin (snd p)).

Definition enu_row (p : (R * R) * list R) : list R :=
  rmat_vec (enu_rotation (fst (fst p)) (snd (fst p))) (snd p).

(** ** numpy: stacking, reshaping, the linear solve *)

Module Linalg.

(** [np.vstack((a, b))]: a vector counts as one row; the row lengths must
    agree. *)
Definition vstack (a b : ndarray) : result ndarray :=
  let rows (x : ndarray) : option (nat * nat) :=
    match shape x with
    | [] => Some (1, 1)%nat
    | [n] => Some (1, n)%nat
    | [r; n] => Some (r, n)
    | _ => None
    end in
  match rows a, rows b with
  | Some (ra, na), Some (rb, nb) =>
      if Nat.eqb na nb
      then Ok (mk_array [(ra + rb)%nat; na] (data a ++ data b))
      else Raise ValueError
  | _, _ => Raise Unmodelled
  end.

(** [a.reshape(-1)] *)
Definition ravel (a : ndarray) : ndarray :=
  mk_array [length (data a)] (data a).

(** [a.reshape(sh)] *)
Definition reshape (a : ndarray) (sh : list nat) : result ndarray :=
  if Nat.eqb (size_of sh) (length (data a))
  then Ok (mk_array sh (data a))
  else Raise ValueError.

(** [a[i, :]] of a 2-D array. *)
Definition row (a : ndarray) (i : nat) : result ndarray :=
  match shape a with
  | [n; m] =>
      if (i <? n)%nat
      then Ok (mk_array [m] (firstn m (skipn (i * m) (data a))))
      else Raise IndexError
  | _ => Raise IndexError
  end.

(** LAPACK [dgetrf] on a 2x2 matrix: LU factorisation with partial
    pivoting.  The row whose first entry is larger in absolute value becomes
    the pivot row; an exactly zero pivot is reported, which numpy turns into
    LinAlgError("Singular matrix"). *)
Record lu2 : Type := mk_lu2 {
  swapped : bool;
  u00 : npfloat; u01 : npfloat;
  l10 : npfloat; u11 : npfloat
}.

Definition getrf2 (a00 a01 a10 a11 : npfloat) : result lu2 :=
  let swap := fabs_gtb a10 a00 in
  let p0 := if swap then a10 else a00 in
  let p1 := if swap then a11 else a01 in
  let q0 := if swap then a00 else a10 in
  let q1 := if swap then a01 else a11 in
  if fis_zero p0 then Raise LinAlgError
  else
    let l := fdiv q0 p0 in
    let u := fsub q1 (fmul l p1) in
    if fis_zero u then Raise LinAlgError
    else Ok (mk_lu2 swap p0 p1 l u).

(** LAPACK [dgetrs] for one right-hand side: the row exchange, the forward
    substitution with the unit lower factor, the back substitution. *)
Definition getrs2 (f : lu2) (b0 b1 : npfloat) : npfloat * npfloat :=
  let c0 := if swapped f then b1 else b0 in
  let c1 := if swapped f then b0 else b1 in
  let y1 := fsub c1 (fmul (l10 f) c0) in
  let x1 := fdiv y1 (u11 f) in
  let x0 := fdiv (fsub c0 (fmul (u01 f) x1)) (u00 f) in
  (x0, x1).

(** [np.linalg.solve(a, b)] for a 2x2 matrix [a] and [b] of shape (2,) or
    (2, k): every column of [b] is solved with the one factorisation.  A
    non-square [a] is a LinAlgError, a [b] of the wrong height a ValueError;
    square systems of another size are outside the model. *)
Definition solve (a b : ndarray) : result ndarray :=
  match shape a with
  | [n; m] =>
      if negb (Nat.eqb n m) then Raise LinAlgError
      else if negb (Nat.eqb n 2) then Raise Unmodelled
      else
        let e := Np.item2 2 (data a) in
        match shape b with
        | [2%nat] =>
            f <- getrf2 (e 0 0) (e 0 1) (e 1 0) (e 1 1) ;;
            let x := getrs2 f (Np.item1 (data b) 0) (Np.item1 (data b) 1) in
            Ok (mk_array [2%nat] [fst x; snd x])
        | [2%nat; k] =>
            f <- getrf2 (e 0 0) (e 0 1) (e 1 0) (e 1 1) ;;
            let xs := map (fun j => getrs2 f (Np.item2 k (data b) 0 j)
                                             (Np.item2 k (data b) 1 j))
                          (seq 0 k) in
            Ok (mk_array [2%nat; k] (map fst xs ++ map snd xs))
        | _ => Raise ValueError
        end
  | _ => Raise LinAlgError
  end%nat.

End Linalg.

(** ** los.py: east/vertical decomposition

    [find_vertical_def(asc_path, desc_path)] from line 184 on.  What the
    function reads from disk before that is taken as arguments: the two
    [east, up] coefficient vectors ([find_east_up_coeffs], which is not in
    los.py) and the two deformation stacks ([sario.load_deformation]).
    The [print] calls are left out. *)
Definition find_vertical_def (eu_asc eu_desc asc_deform desc_deform : ndarray)
  : result (ndarray * ndarray) :=
  east_up_coeffs <- Linalg.vstack eu_asc eu_desc ;;
  if negb (shape_eqb (shape asc_deform) (shape desc_deform))
  then Raise AssertionError
  else
    match shape asc_deform with
    | [nlayers; nrows; ncols] =>
        d_asc_desc <- Linalg.vstack (Linalg.ravel asc_deform)
                                    (Linalg.ravel desc_deform) ;;
        dd <- Linalg.solve east_up_coeffs d_asc_desc ;;
        r0 <- Linalg.row dd 0 ;;
        def_east <- Linalg.reshape r0 [nlayers; nrows; ncols] ;;
        r1 <- Linalg.row dd 1 ;;
        def_vertical <- Linalg.reshape r1 [nlayers; nrows; ncols] ;;
        Ok (def_east, def_vertical)
    | _ => Raise ValueError
    end.


(** Cramer's rule for [[a00 a01] [a10 a11]] . x = [b0 b1]. *)
Definition det2 (a00 a01 a10 a11 : R) : R := (a00 * a11 - a01 * a10)%R.



(** ** los.py: merging two date lists

    A date is its ordinal ([datetime.date.toordinal()]); only the order and
    the equality of dates matter here. *)

Module Dates.

Definition date : Type := Z.

Fixpoint insert (x : date) (l : list date) : list date :=
  match l with
  | [] => [x]
  | y :: t => if (x <=? y)%Z then x :: l else y :: insert x t
  end.

(** [a.sort()]: the elements in non-decreasing order. *)
Fixpoint sort (l : list date) : list date :=
  match l with
  | [] => []
  | x :: t => insert x (sort t)
  end.

(** One representative of every run of equal neighbours. *)
Fixpoint drop_repeats (l : list date) : list date :=
  match l with
  | [] => []
  | x :: t =>
      match t with
      | [] => [x]
      | y :: _ => if (x =? y)%Z then drop_repeats t else x :: drop_repeats t
      end
  end.

(** [np.unique(a)]: the sorted distinct values. *)
Definition unique (a : list date) : list date := drop_repeats (sort a).

(** Index of the first occurrence of [x] in [l] ([length l] if absent). *)
Fixpoint index_of (x : date) (l : list date) : nat :=
  match l with
  | [] => 0%nat
  | y :: t => if (x =? y)%Z then 0%nat else S (index_of x t)
  end.

(** [np.intersect1d(a, b, return_indices=True)]: the sorted distinct values
    found in both arrays, and for each of them the index of its first
    occurrence in [a] and in [b]. *)
Definition intersect1d (a b : list date) : list date * list nat * list nat :=
  let common := filter (fun x => existsb (Z.eqb x) b) (unique a) in
  (common, map (fun x => index_of x a) common, map (fun x => index_of x b) common).

End Dates.

(** [merge_geolists(geolist1, geolist2)] *)
Definition merge_geolists (geolist1 geolist2 : list Dates.date)
  : list Dates.date * list nat * list nat :=
  let merged_geolist := Dates.sort (geolist1 ++ geolist2) in
  let '(_, indices1, _) := Dates.intersect1d merged_geolist geolist1 in
  let '(_, indices2, _) := Dates.intersect1d merged_geolist geolist2 in
  (merged_geolist, indices1, indices2).

(** ** los.py: coefficients from a line-of-sight map file *)

Definition fabs (x : npfloat) : npfloat :=
  match x with
  | Fin r => Fin (Rabs r)
  | Inf _ => Inf false
  | NaN => NaN
  end.

Definition is_nan (x : npfloat) : bool :=
  match x with NaN => true | _ => false end.

(** [x < y]; false as soon as one side is [nan]. *)
Definition fltb (x y : npfloat) : bool :=
  match x, y with
  | NaN, _ | _, NaN => false
  | Fin a, Fin b => if Rlt_dec a b then true else false
  | Inf s, Inf t => s && negb t
  | Inf s, Fin _ => s
  | Fin _, Inf t => negb t
  end.

(** [a.argmin()]: the first position of the minimum, a [nan] counting as
    the minimum; the empty array is a ValueError. *)
Fixpoint argmin_from (best_i : nat) (best : npfloat) (i : nat)
    (l : list npfloat) : nat :=
  match l with
  | [] => best_i
  | x :: t =>
      if is_nan best then best_i
      else if is_nan x || fltb x best then argmin_from i x (S i) t
      else argmin_from best_i best (S i) t
  end.

Definition argmin (l : list npfloat) : result nat :=
  match l with
  | [] => Raise ValueError
  | x :: t => Ok (argmin_from 0 x 1 t)
  end.

(** [_find_nearest(array, value)]: the element (not the index) of [array]
    closest to [value]. *)
Definition _find_nearest (array : list npfloat) (value : npfloat) : result npfloat :=
  idx <- argmin (map (fun a => fabs (fsub a value)) array) ;;
  Ok (nth idx array NaN).

(** What h5py shows of a map file: the datasets "lats" and "lons", and the
    slice ["stack"][:, row, col] as a function of the two subscripts. *)
Record los_map : Type := mk_los_map {
  lats : list npfloat;
  lons : list npfloat;
  stack_at : npfloat -> npfloat -> result ndarray
}.

Section MapFiles.
(** The files that can be opened, by path. *)
Variable files : string -> option los_map.

Definition _read_los_map_file (los_map_file : string) (lat lon : npfloat)
  : result ndarray :=
  match files los_map_file with
  | None => Raise OSError
  | Some f =>
      row <- _find_nearest (lats f) lat ;;
      col <- _find_nearest (lons f) lon ;;
      stack_at f row col
  end.

(** [find_enu_coeffs(lon, lat, geo_path=None, los_map_file=None,
    verbose=False)]; falling off the end of the body returns [None]. *)
Definition find_enu_coeffs (lon lat : npfloat) (geo_path : option string)
    (los_map_file : option string) (verbose : bool) : result (option ndarray) :=
  match los_map_file with
  | Some path => a <- _read_los_map_file path lat lon ;; Ok (Some a)
  | None => Ok None
  end.
End MapFiles.

(** ** Further real-number notions used by the properties *)

(** The unit vector along axis 1, 2 or 3. *)
Definition unit_vector (axis : Z) : list R :=
  if (axis =? 1)%Z then [1; 0; 0]%R
  else if (axis =? 2)%Z then [0; 1; 0]%R
  else [0; 0; 1]%R.

(** The ECEF-to-ENU transformation in closed form, as in the reference the
    docstring of [rotate_xyz_to_enu] cites: latitude [lat] and longitude
    [lon] in degrees, [v] the vector (x, y, z). *)
Definition ecef_to_enu (lat lon : R) (v : list R) : list R :=
  let phi := (lat * (PI / 180))%R in
  let lam := (lon * (PI / 180))%R in
  let x := nth 0 v 0%R in
  let y := nth 1 v 0%R in
  let z := nth 2 v 0%R in
  [ (- sin lam * x + cos lam * y)%R;
    (- sin phi * cos lam * x - sin phi * sin lam * y + cos phi * z)%R;
    (cos phi * cos lam * x + cos phi * sin lam * y + sin phi * z)%R ].

(** Column [j] of a (3, k) batch. *)
Definition column3 (k : nat) (v : list R) (j : nat) : list R :=
  [rentry k v 0 j; rentry k v 1 j; rentry k v 2 j].

(* ================================================================== *)
(** * Part II: properties                                              *)
(* ================================================================== *)

(** ** Rotation matrices

    What [rot] returns for each axis, whatever the angle (finite or not). *)

Lemma rot_axis1 (a : npfloat) (deg : bool) :
  rot a 1 deg =
  let t := if deg then deg2rad a else a in
  Ok (mk_array [3%nat; 3%nat]
        [Fin 1; Fin 0; Fin 0;
         Fin 0; fcos t; fsin t;
         Fin 0; fopp (fsin t); fcos t]).
Proof. reflexivity. Qed.

Lemma rot_axis2 (a : npfloat) (deg : bool) :
  rot a 2 deg =
  let t := if deg then deg2rad a else a in
  Ok (mk_array [3%nat; 3%nat]
        [fcos t; Fin 0; fopp (fsin t);
         Fin 0; Fin 1; Fin 0;
         fsin t; Fin 0; fcos t]).
Proof. reflexivity. Qed.

Lemma rot_axis3 (a : npfloat) (deg : bool) :
  rot a 3 deg =
  let t := if deg then deg2rad a else a in
  Ok (mk_array [3%nat; 3%nat]
        [fcos t; fsin t; Fin 0;
         fopp (fsin t); fcos t; Fin 0;
         Fin 0; Fin 0; Fin 1]).
Proof. reflexivity. Qed.

Lemma list9_eq (a0 a1 a2 a3 a4 a5 a6 a7 a8 b0 b1 b2 b3 b4 b5 b6 b7 b8 : R) :
  a0 = b0 -> a1 = b1 -> a2 = b2 -> a3 = b3 -> a4 = b4 -> a5 = b5 ->
  a6 = b6 -> a7 = b7 -> a8 = b8 ->
  [a0; a1; a2; a3; a4; a5; a6; a7; a8] = [b0; b1; b2; b3; b4; b5; b6; b7; b8].
Proof. intros; subst; reflexivity. Qed.

Section Planar.
(** A cosine/sine pair. *)
Variables c s : R.
Hypothesis unit : (s * s + c * c = 1)%R.

Lemma planar_axis1 :
  let m := [1; 0; 0; 0; c; s; 0; - s; c]%R in
  orthogonal m /\ det3 m = 1%R.
Proof using unit.
  cbv [orthogonal rmat_mul rtranspose ridentity det3 rentry rsum3
       Np.tabulate2 flat_map seq map nth Nat.mul Nat.add app].
  repeat split; try apply list9_eq; nra.
Qed.

Lemma planar_axis2 :
  let m := [c; 0; - s; 0; 1; 0; s; 0; c]%R in
  orthogonal m /\ det3 m = 1%R.
Proof using unit.
  cbv [orthogonal rmat_mul rtranspose ridentity det3 rentry rsum3
       Np.tabulate2 flat_map seq map nth Nat.mul Nat.add app].
  repeat split; try apply list9_eq; nra.
Qed.

Lemma planar_axis3 :
  let m := [c; s; 0; - s; c; 0; 0; 0; 1]%R in
  orthogonal m /\ det3 m = 1%R.
Proof using unit.
  cbv [orthogonal rmat_mul rtranspose ridentity det3 rentry rsum3
       Np.tabulate2 flat_map seq map nth Nat.mul Nat.add app].
  repeat split; try apply list9_eq; nra.
Qed.
End Planar.

Lemma sin_cos_unit (t : R) : (sin t * sin t + cos t * cos t = 1)%R.
Proof. generalize (sin2_cos2 t); unfold Rsqr; lra. Qed.

(** C6 -- rotation orthogonality: for every (finite) angle, in degrees or in
    radians, and every axis among 1, 2, 3, [rot] returns a 3x3 matrix of
    finite entries whose transpose is its inverse on both sides and whose
    determinant is +1. *)
Theorem rot_orthogonal (theta : R) (axis : Z) (in_degrees : bool) :
  (axis = 1 \/ axis = 2 \/ axis = 3)%Z ->
  exists m : list R,
    rot (Fin theta) axis in_degrees = Ok (of_reals [3; 3]%nat m) /\
    length m = 9%nat /\ orthogonal m /\ det3 m = 1%R.
Proof.
  intros Hax.
  pose proof (sin_cos_unit (radians theta in_degrees)) as Hu.
  set (t := radians theta in_degrees) in *.
  destruct Hax as [-> | [-> | ->]].
  - exists [1; 0; 0; 0; cos t; sin t; 0; - sin t; cos t]%R.
    split; [destruct in_degrees; reflexivity|].
    split; [reflexivity|]. exact (planar_axis1 _ _ Hu).
  - exists [cos t; 0; - sin t; 0; 1; 0; sin t; 0; cos t]%R.
    split; [destruct in_degrees; reflexivity|].
    split; [reflexivity|]. exact (planar_axis2 _ _ Hu).
  - exists [cos t; sin t; 0; - sin t; cos t; 0; 0; 0; 1]%R.
    split; [destruct in_degrees; reflexivity|].
    split; [reflexivity|]. exact (planar_axis3 _ _ Hu).
Qed.

Lemma rot_orthogonal_witness :
  exists m : list R,
    rot (Fin 30) 3 true = Ok (of_reals [3; 3]%nat m) /\
    length m = 9%nat /\ orthogonal m /\ det3 m = 1%R.
Proof. apply (rot_orthogonal 30 3 true). right; right; reflexivity. Defined.

(** ** Tabulated arrays *)

Lemma length_tabulate2 {A : Type} (n k : nat) (f : nat -> nat -> A) :
  length (Np.tabulate2 n k f) = (n * k)%nat.
Proof.
  unfold Np.tabulate2.
  transitivity (length (seq 0 n) * k)%nat; [|now rewrite length_seq].
  generalize (seq 0 n) as l.
  induction l as [|x l IH]; simpl; [reflexivity|].
  rewrite length_app, length_map, length_seq, IH. reflexivity.
Qed.

Lemma nth_flat_rows {A : Type} (k : nat) (f : nat -> nat -> A) (d : A) :
  forall n s i j, (i < n)%nat -> (j < k)%nat ->
    nth (i * k + j) (flat_map (fun i => map (f i) (seq 0 k)) (seq s n)) d
    = f (s + i)%nat j.
Proof.
  induction n as [|n IH]; intros s i j Hi Hj; [lia|].
  simpl. destruct i as [|i].
  - rewrite app_nth1 by (rewrite length_map, length_seq; lia).
    simpl. rewrite Nat.add_0_r.
    rewrite (nth_indep _ d (f s 0%nat)) by (rewrite length_map, length_seq; lia).
    rewrite map_nth, seq_nth by lia. reflexivity.
  - rewrite app_nth2 by (rewrite length_map, length_seq; simpl; lia).
    rewrite length_map, length_seq.
    replace (S i * k + j - k)%nat with (i * k + j)%nat by (simpl; lia).
    rewrite IH by lia. f_equal. lia.
Qed.

Lemma nth_tabulate2 {A : Type} (n k : nat) (f : nat -> nat -> A) (d : A) i j :
  (i < n)%nat -> (j < k)%nat -> nth (i * k + j) (Np.tabulate2 n k f) d = f i j.
Proof. intros Hi Hj. unfold Np.tabulate2. now rewrite nth_flat_rows. Qed.

Lemma tabulate2_ext {A : Type} (n k : nat) (f g : nat -> nat -> A) :
  (forall i j, (i < n)%nat -> (j < k)%nat -> f i j = g i j) ->
  Np.tabulate2 n k f = Np.tabulate2 n k g.
Proof.
  intros H. unfold Np.tabulate2.
  assert (E : forall i, In i (seq 0 n) ->
            map (f i) (seq 0 k) = map (g i) (seq 0 k)).
  { intros i Hi. apply in_seq in Hi. apply map_ext_in.
    intros j Hj. apply in_seq in Hj. apply H; lia. }
  revert E. generalize (seq 0 n) as l.
  induction l as [|x l IH]; intros E; simpl; [reflexivity|].
  rewrite E by (left; reflexivity). f_equal. apply IH.
  intros i Hi. apply E. right; exact Hi.
Qed.

Lemma map_tabulate2 {A B : Type} (g : A -> B) n k (f : nat -> nat -> A) :
  map g (Np.tabulate2 n k f) = Np.tabulate2 n k (fun i j => g (f i j)).
Proof.
  unfold Np.tabulate2. generalize (seq 0 n) as l.
  induction l as [|x l IH]; simpl; [reflexivity|].
  rewrite map_app, map_map, IH. reflexivity.
Qed.

Lemma item2_finite (k : nat) (v : list R) i j :
  (i * k + j < length v)%nat ->
  Np.item2 k (map Fin v) i j = Fin (rentry k v i j).
Proof.
  intros H. unfold Np.item2, rentry.
  rewrite (nth_indep _ NaN (Fin 0)) by (rewrite length_map; exact H).
  apply (map_nth Fin).
Qed.

Lemma sum_prod_3 (f g : nat -> npfloat) :
  Np.sum_prod 3 f g =
  fadd (fadd (fadd (Fin 0) (fmul (f 0%nat) (g 0%nat)))
             (fmul (f 1%nat) (g 1%nat)))
       (fmul (f 2%nat) (g 2%nat)).
Proof. reflexivity. Qed.

Ltac three_cases i H :=
  destruct i as [|[|[|i]]]; [ | | | exfalso; lia ].

(** ** [matmul] on finite operands is the real matrix product *)

Lemma matmul_3x3_batch (a v : list R) (k : nat) :
  length a = 9%nat -> length v = (3 * k)%nat ->
  Np.matmul (of_reals [3; 3]%nat a) (of_reals [3; k]%nat v)
  = Ok (of_reals [3; k]%nat (rmat_batch a k v)).
Proof.
  intros Ha Hv.
  do 9 (destruct a as [|? a]; [discriminate Ha|]).
  destruct a; [clear Ha|discriminate Ha].
  unfold Np.matmul, of_reals, rmat_batch; cbn [shape data Nat.eqb].
  do 2 f_equal. rewrite map_tabulate2. apply tabulate2_ext.
  intros i j Hi Hj. rewrite sum_prod_3. cbv beta.
  rewrite !item2_finite by (try rewrite Hv; cbn [length]; nia).
  three_cases i Hi; cbn; f_equal; unfold rsum3, rentry; cbn; ring.
Qed.

Lemma matmul_3x3_vec (a v : list R) :
  length a = 9%nat -> length v = 3%nat ->
  Np.matmul (of_reals [3; 3]%nat a) (of_reals [3]%nat v)
  = Ok (of_reals [3]%nat (rmat_vec a v)).
Proof.
  intros Ha Hv.
  do 9 (destruct a as [|? a]; [discriminate Ha|]).
  destruct a; [clear Ha|discriminate Ha].
  do 3 (destruct v as [|? v]; [discriminate Hv|]).
  destruct v; [clear Hv|discriminate Hv].
  unfold Np.matmul, of_reals, rmat_vec; cbn [shape data Nat.eqb].
  do 2 f_equal. cbn [seq map]. rewrite !sum_prod_3.
  cbn. unfold rsum3, rentry. cbn.
  repeat (apply (f_equal2 cons); [apply (f_equal Fin); ring|]). reflexivity.
Qed.

Lemma length_rmat_mul (a b : list R) : length (rmat_mul a b) = 9%nat.
Proof. reflexivity. Qed.

Lemma length_rmat_batch (p : list R) k v : length (rmat_batch p k v) = (3 * k)%nat.
Proof. apply length_tabulate2. Qed.

Lemma rentry_rmat_mul (a b : list R) i j :
  (i < 3)%nat -> (j < 3)%nat ->
  rentry 3 (rmat_mul a b) i j
  = rsum3 (fun t => rentry 3 a i t * rentry 3 b t j)%R.
Proof. intros Hi Hj. unfold rentry at 1, rmat_mul. now rewrite nth_tabulate2. Qed.

(** Associativity: applying [b] and then [a] is applying the product. *)
Lemma rmat_batch_assoc (a b : list R) k v :
  rmat_batch a k (rmat_batch b k v) = rmat_batch (rmat_mul a b) k v.
Proof.
  unfold rmat_batch at 1 3. apply tabulate2_ext. intros i j Hi Hj.
  unfold rsum3. rewrite !rentry_rmat_mul by lia.
  assert (E : forall t, (t < 3)%nat ->
            rentry k (rmat_batch b k v) t j
            = rsum3 (fun u => rentry 3 b t u * rentry k v u j)%R).
  { intros t Ht. unfold rentry at 1, rmat_batch. now rewrite nth_tabulate2. }
  rewrite !E by lia. unfold rsum3. ring.
Qed.

Lemma rmat_vec_assoc (a b v : list R) :
  rmat_vec a (rmat_vec b v) = rmat_vec (rmat_mul a b) v.
Proof.
  unfold rmat_vec. cbn [seq map]. unfold rsum3.
  rewrite !rentry_rmat_mul by lia.
  unfold rsum3. cbn [nth]. repeat (apply (f_equal2 cons); [ring|]). reflexivity.
Qed.

(** [rot] on a finite angle returns the closed-form matrix. *)
Lemma rot_finite (theta : R) (axis : Z) (in_degrees : bool) :
  (axis = 1 \/ axis = 2 \/ axis = 3)%Z ->
  rot (Fin theta) axis in_degrees
  = Ok (of_reals [3; 3]%nat (axis_rotation axis (radians theta in_degrees))).
Proof. intros [-> | [-> | ->]]; destruct in_degrees; reflexivity. Qed.

Lemma length_axis_rotation axis t : length (axis_rotation axis t) = 9%nat.
Proof.
  unfold axis_rotation.
  destruct (axis =? 1)%Z; [reflexivity|]. destruct (axis =? 2)%Z; reflexivity.
Qed.

(** [rotate_xyz_to_enu] on finite arguments. *)
Lemma rotate_vec_finite (lat lon : R) (v : list R) :
  length v = 3%nat ->
  rotate_xyz_to_enu (of_reals [3]%nat v) (Fin lat) (Fin lon)
  = Ok (of_reals [3]%nat (rmat_vec (enu_rotation lat lon) v)).
Proof.
  intros H3. unfold rotate_xyz_to_enu, enu_rotation.
  change (fadd (Fin 90) (Fin lon)) with (Fin (90 + lon)).
  change (fsub (Fin 90) (Fin lat)) with (Fin (90 + - lat)).
  replace (90 + - lat)%R with (90 - lat)%R by ring.
  rewrite (rot_finite (90 - lat) 1 true), (rot_finite (90 + lon) 3 true) by tauto.
  cbn [bind].
  rewrite matmul_3x3_vec by (apply length_axis_rotation || exact H3).
  cbn [bind]. rewrite matmul_3x3_vec by (apply length_axis_rotation || reflexivity).
  now rewrite rmat_vec_assoc.
Qed.

Lemma rotate_batch_finite (lat lon : R) (k : nat) (v : list R) :
  length v = (3 * k)%nat ->
  rotate_xyz_to_enu (of_reals [3; k]%nat v) (Fin lat) (Fin lon)
  = Ok (of_reals [3; k]%nat (rmat_batch (enu_rotation lat lon) k v)).
Proof.
  intros Hk. unfold rotate_xyz_to_enu, enu_rotation.
  change (fadd (Fin 90) (Fin lon)) with (Fin (90 + lon)).
  change (fsub (Fin 90) (Fin lat)) with (Fin (90 + - lat)).
  replace (90 + - lat)%R with (90 - lat)%R by ring.
  rewrite (rot_finite (90 - lat) 1 true), (rot_finite (90 + lon) 3 true) by tauto.
  cbn [bind].
  rewrite matmul_3x3_batch by (apply length_axis_rotation || exact Hk).
  cbn [bind].
  rewrite matmul_3x3_batch by (apply length_axis_rotation || apply length_rmat_batch).
  now rewrite rmat_batch_assoc.
Qed.

(** C2 -- for finite latitude and longitude (degrees) and finite [xyz],
    either a 3-vector or a (3,k) batch, [rotate_xyz_to_enu] returns the
    product (R1(90 - lat) . R3(90 + lon)) applied to [xyz], where R1 and R3
    are the matrices returned by [rot] in degrees; the result has the shape
    of [xyz]. *)
Theorem rotate_xyz_to_enu_product (lat lon : R) (v3 : list R) (k : nat) (vk : list R) :
  length v3 = 3%nat -> length vk = (3 * k)%nat ->
  exists m1 m3 : list R,
    rot (Fin (90 - lat)) 1 true = Ok (of_reals [3; 3]%nat m1) /\
    rot (Fin (90 + lon)) 3 true = Ok (of_reals [3; 3]%nat m3) /\
    rotate_xyz_to_enu (of_reals [3]%nat v3) (Fin lat) (Fin lon)
      = Ok (of_reals [3]%nat (rmat_vec (rmat_mul m1 m3) v3)) /\
    length (rmat_vec (rmat_mul m1 m3) v3) = 3%nat /\
    rotate_xyz_to_enu (of_reals [3; k]%nat vk) (Fin lat) (Fin lon)
      = Ok (of_reals [3; k]%nat (rmat_batch (rmat_mul m1 m3) k vk)) /\
    length (rmat_batch (rmat_mul m1 m3) k vk) = (3 * k)%nat.
Proof.
  intros H3 Hk.
  exists (axis_rotation 1 (radians (90 - lat) true)),
         (axis_rotation 3 (radians (90 + lon) true)).
  assert (E1 := rot_finite (90 - lat) 1 true (or_introl eq_refl)).
  assert (E3 := rot_finite (90 + lon) 3 true (or_intror (or_intror eq_refl))).
  split; [exact E1|]. split; [exact E3|].
  split; [exact (rotate_vec_finite lat lon v3 H3)|].
  split; [reflexivity|].
  split; [exact (rotate_batch_finite lat lon k vk Hk)|apply length_rmat_batch].
Qed.

Lemma rotate_xyz_to_enu_product_witness :
  exists m1 m3 : list R,
    rot (Fin (90 - 45)) 1 true = Ok (of_reals [3; 3]%nat m1) /\
    rot (Fin (90 + 10)) 3 true = Ok (of_reals [3; 3]%nat m3) /\
    rotate_xyz_to_enu (of_reals [3]%nat [1; 2; 3]%R) (Fin 45) (Fin 10)
      = Ok (of_reals [3]%nat (rmat_vec (rmat_mul m1 m3) [1; 2; 3]%R)) /\
    length (rmat_vec (rmat_mul m1 m3) [1; 2; 3]%R) = 3%nat /\
    rotate_xyz_to_enu (of_reals [3; 2]%nat [1; 2; 3; 4; 5; 6]%R) (Fin 45) (Fin 10)
      = Ok (of_reals [3; 2]%nat (rmat_batch (rmat_mul m1 m3) 2 [1; 2; 3; 4; 5; 6]%R)) /\
    length (rmat_batch (rmat_mul m1 m3) 2 [1; 2; 3; 4; 5; 6]%R) = (3 * 2)%nat.
Proof.
  apply (rotate_xyz_to_enu_product 45 10 [1; 2; 3]%R 2 [1; 2; 3; 4; 5; 6]%R);
    reflexivity.
Defined.

(** ** Projection *)

Ltac fin_list_eq :=
  repeat (apply (f_equal2 cons); [apply (f_equal Fin); ring|]); try reflexivity.

Ltac fin_array_eq :=
  apply (f_equal (@Ok ndarray)); apply (f_equal (mk_array _)); fin_list_eq.

Lemma dot_vec_vec (c e : list R) :
  length c = 3%nat -> length e = 3%nat ->
  Np.dot (of_reals [3]%nat c) (of_reals [3]%nat e) = Ok (of_reals [] [rdot3 c e]).
Proof.
  intros Hc He.
  do 3 (destruct c as [|? c]; [discriminate Hc|]).
  destruct c; [clear Hc|discriminate Hc].
  do 3 (destruct e as [|? e]; [discriminate He|]).
  destruct e; [clear He|discriminate He].
  unfold Np.dot, Np.matmul, of_reals, rdot3, rsum3; cbn.
  fin_array_eq.
Qed.

Lemma dot_vec_batch (c : list R) (k : nat) (e : list R) :
  length c = 3%nat -> length e = (3 * k)%nat ->
  Np.dot (of_reals [3]%nat c) (of_reals [3; k]%nat e)
  = Ok (of_reals [k] (rdot3_batch c k e)).
Proof.
  intros Hc He.
  do 3 (destruct c as [|? c]; [discriminate Hc|]).
  destruct c; [clear Hc|discriminate Hc].
  unfold Np.dot, Np.matmul, of_reals, rdot3_batch; cbn [shape data Nat.eqb].
  do 2 f_equal. rewrite map_map. apply map_ext_in.
  intros j Hj. apply in_seq in Hj.
  rewrite sum_prod_3. cbv beta.
  rewrite !item2_finite by (rewrite He; nia).
  cbn. f_equal. unfold rsum3. cbn. ring.
Qed.

(** C5 -- with [enu_coeffs] given (three finite numbers), [project_enu_to_los]
    is the dot product of the coefficients with [enu]: a scalar for a
    3-vector, one number per column for a (3,k) batch; whatever [los_vec],
    [lat], [lon] are.  With enu = [1,2,3] the result is 1, 2 and 3 for the
    coefficients [1,0,0], [0,1,0] and [0,0,1]. *)
Theorem project_enu_to_los_dot (c e3 : list R) (k : nat) (ek : list R)
    (los_vec : option ndarray) (lat lon : option npfloat) :
  length c = 3%nat -> length e3 = 3%nat -> length ek = (3 * k)%nat ->
  project_enu_to_los (of_reals [3]%nat e3) los_vec lat lon (Some (of_reals [3]%nat c))
    = Ok (of_reals [] [(nth 0 c 0 * nth 0 e3 0 + nth 1 c 0 * nth 1 e3 0
                        + nth 2 c 0 * nth 2 e3 0)%R]) /\
  project_enu_to_los (of_reals [3; k]%nat ek) los_vec lat lon (Some (of_reals [3]%nat c))
    = Ok (of_reals [k]
            (map (fun j => (nth 0 c 0 * nth (0 * k + j) ek 0
                            + nth 1 c 0 * nth (1 * k + j) ek 0
                            + nth 2 c 0 * nth (2 * k + j) ek 0)%R) (seq 0 k))) /\
  project_enu_to_los (of_reals [3]%nat [1; 2; 3]%R) los_vec lat lon
      (Some (of_reals [3]%nat [1; 0; 0]%R)) = Ok (of_reals [] [1%R]) /\
  project_enu_to_los (of_reals [3]%nat [1; 2; 3]%R) los_vec lat lon
      (Some (of_reals [3]%nat [0; 1; 0]%R)) = Ok (of_reals [] [2%R]) /\
  project_enu_to_los (of_reals [3]%nat [1; 2; 3]%R) los_vec lat lon
      (Some (of_reals [3]%nat [0; 0; 1]%R)) = Ok (of_reals [] [3%R]).
Proof.
  intros Hc H3 Hk. unfold project_enu_to_los. cbn [bind].
  split; [now rewrite dot_vec_vec|].
  split; [now rewrite dot_vec_batch|].
  rewrite !dot_vec_vec by reflexivity.
  unfold rdot3, rsum3, of_reals; cbn [nth map].
  repeat split; fin_array_eq.
Qed.

Lemma project_enu_to_los_dot_witness :
  project_enu_to_los (of_reals [3]%nat [4; 5; 6]%R) None None None
      (Some (of_reals [3]%nat [1; 2; 3]%R))
    = Ok (of_reals [] [(1 * 4 + 2 * 5 + 3 * 6)%R]) /\
  project_enu_to_los (of_reals [3; 2]%nat [1; 2; 3; 4; 5; 6]%R) None None None
      (Some (of_reals [3]%nat [1; 2; 3]%R))
    = Ok (of_reals [2]%nat [(1 * 1 + 2 * 3 + 3 * 5)%R; (1 * 2 + 2 * 4 + 3 * 6)%R]).
Proof.
  destruct (project_enu_to_los_dot [1; 2; 3]%R [4; 5; 6]%R 2 [1; 2; 3; 4; 5; 6]%R
              None None None eq_refl eq_refl eq_refl) as (H1 & H2 & _).
  split; [exact H1 | exact H2].
Defined.

(** ** Normalisation of the line-of-sight vector *)


Lemma Rzero_false (r : R) : r <> 0%R -> Rzero r = false.
Proof. intros H. unfold Rzero. destruct (Req_dec_T r 0); [contradiction|reflexivity]. Qed.

Lemma Rneg_false (r : R) : (0 <= r)%R -> Rneg r = false.
Proof. intros H. unfold Rneg. destruct (Rlt_dec r 0); [lra|reflexivity]. Qed.

Lemma sum_squares_acc (v : list R) (a : R) :
  fold_left (fun acc x => acc + x * x)%R v a = (a + sum_squares v)%R.
Proof.
  unfold sum_squares. revert a.
  induction v as [|x v IH]; intros a; simpl; [ring|].
  rewrite IH, (IH (0 + x * x)%R). ring.
Qed.

Lemma sum_squares_cons (x : R) (v : list R) :
  sum_squares (x :: v) = (x * x + sum_squares v)%R.
Proof. unfold sum_squares at 1. simpl. rewrite sum_squares_acc. ring. Qed.

Lemma sum_squares_nonneg (v : list R) : (0 <= sum_squares v)%R.
Proof.
  induction v as [|x v IH]; [unfold sum_squares; simpl; lra|].
  rewrite sum_squares_cons. nra.
Qed.





Lemma fsum_squares_finite (v : list R) (a : R) :
  fold_left fadd (map (fun x => fmul x x) (map Fin v)) (Fin a)
  = Fin (fold_left (fun acc x => acc + x * x)%R v a).
Proof.
  revert a. induction v as [|x v IH]; intros a; [reflexivity|].
  cbn [map fold_left]. exact (IH (a + x * x)%R).
Qed.

Lemma linalg_norm_finite (sh : list nat) (v : list R) :
  Np.linalg_norm (of_reals sh v) = Fin (euclid_norm v).
Proof.
  unfold Np.linalg_norm, of_reals, fsum; cbn [data].
  rewrite fsum_squares_finite. fold (sum_squares v).
  unfold fsqrt. now rewrite Rneg_false by apply sum_squares_nonneg.
Qed.

Lemma divide_scalar_finite (sh : list nat) (v : list R) (n : R) :
  n <> 0%R ->
  Np.divide_scalar (of_reals sh v) (Fin n) = of_reals sh (map (fun x => x / n)%R v).
Proof.
  intros Hn. unfold Np.divide_scalar, of_reals; cbn [shape data]. f_equal.
  rewrite !map_map. apply map_ext. intros x. unfold fdiv.
  now rewrite (Rzero_false n Hn).
Qed.






(** ** Batch conversion *)

Lemma mapM_rotate_finite (ll : list (R * R)) (xs : list (list R)) :
  Forall (fun v => length v = 3%nat) xs ->
  mapM (fun p : (npfloat * npfloat) * ndarray =>
          let '((lat, lon), xyz) := p in rotate_xyz_to_enu xyz lat lon)
       (combine (map finite_point ll) (map (of_reals [3]%nat) xs))
  = Ok (map (fun p => of_reals [3]%nat (enu_row p)) (combine ll xs)).
Proof.
  intros H. revert ll.
  induction H as [|v xs Hv _ IH]; intros [|[lat lon] ll]; try reflexivity.
  cbn [map combine mapM finite_point fst snd].
  rewrite (rotate_vec_finite lat lon v Hv). cbn [bind].
  rewrite IH. reflexivity.
Qed.

Lemma np_array_rows3 (rows : list (list R)) :
  np_array (map (of_reals [3]%nat) rows)
  = Ok (of_reals (if Nat.eqb (length rows) 0 then [0%nat] else [length rows; 3%nat])
                 (concat rows)).
Proof.
  destruct rows as [|r rows]; [reflexivity|].
  unfold np_array. cbn [map].
  replace (forallb _ _) with true.
  - cbn [length Nat.eqb shape of_reals]. unfold of_reals. f_equal. f_equal.
    + now rewrite length_map.
    + change (data (mk_array [3%nat] (map Fin r)) :: map data (map (fun v => mk_array [3%nat] (map Fin v)) rows))
        with (map data (map (fun v => mk_array [3%nat] (map Fin v)) (r :: rows))).
      rewrite map_map. cbn [data]. now rewrite concat_map.
  - symmetry. apply forallb_forall. intros b Hb.
    apply in_map_iff in Hb. destruct Hb as (v & <- & _). reflexivity.
Qed.

(** C7 (amended) -- the batch conversion checks no lengths: the points and
    the vectors are paired by [zip], so for finite points and finite
    3-vectors it returns the rotated vectors of the first
    min(len(lat_lons), len(xyz_array)) pairs, stacked into an array of that
    many rows (shape (0,) when there is none); [los_to_enu] is the same
    function. *)
Theorem convert_xyz_latlon_to_enu_zip (ll : list (R * R)) (xs : list (list R)) :
  Forall (fun v => length v = 3%nat) xs ->
  let n := Nat.min (length ll) (length xs) in
  let rows := map enu_row (combine ll xs) in
  length rows = n /\
  convert_xyz_latlon_to_enu (map finite_point ll) (map (of_reals [3]%nat) xs)
  = Ok (of_reals (if Nat.eqb n 0 then [0%nat] else [n; 3%nat]) (concat rows)) /\
  los_to_enu None (Some (map finite_point ll)) (Some (map (of_reals [3]%nat) xs))
  = convert_xyz_latlon_to_enu (map finite_point ll) (map (of_reals [3]%nat) xs).
Proof.
  intros H n rows.
  assert (Hn : length rows = n).
  { unfold rows, n. now rewrite length_map, length_combine. }
  split; [exact Hn|]. split; [|reflexivity].
  unfold convert_xyz_latlon_to_enu.
  rewrite (mapM_rotate_finite ll xs H). cbn [bind].
  rewrite <- (map_map enu_row (of_reals [3]%nat)).
  fold rows. rewrite np_array_rows3, Hn. reflexivity.
Qed.

Lemma convert_xyz_latlon_to_enu_zip_witness :
  convert_xyz_latlon_to_enu (map finite_point [(0, 0); (10, 20)]%R)
    (map (of_reals [3]%nat) [[1; 0; 0]; [0; 1; 0]; [0; 0; 1]]%R)
  = Ok (of_reals [2; 3]%nat
          (concat (map enu_row
             (combine [(0, 0); (10, 20)]%R [[1; 0; 0]; [0; 1; 0]; [0; 0; 1]]%R)))).
Proof.
  assert (H : Forall (fun v : list R => length v = 3%nat)
                [[1; 0; 0]; [0; 1; 0]; [0; 0; 1]]%R) by (repeat constructor).
  exact (proj1 (proj2 (convert_xyz_latlon_to_enu_zip [(0, 0); (10, 20)]%R _ H))).
Defined.

(** C7, as stated, fails: two points against one vector is not an error;
    the second point is dropped and one row is returned. *)
Lemma unequal_lengths_no_error :
  length [(Fin 0, Fin 0); (Fin 10, Fin 20)]
    <> length [of_reals [3]%nat [1; 0; 0]%R] /\
  convert_xyz_latlon_to_enu [(Fin 0, Fin 0); (Fin 10, Fin 20)]
    [of_reals [3]%nat [1; 0; 0]%R]
  = Ok (of_reals [1; 3]%nat (rmat_vec (enu_rotation 0 0) [1; 0; 0]%R)) /\
  los_to_enu None (Some [(Fin 0, Fin 0); (Fin 10, Fin 20)])
    (Some [of_reals [3]%nat [1; 0; 0]%R])
  = Ok (of_reals [1; 3]%nat (rmat_vec (enu_rotation 0 0) [1; 0; 0]%R)).
Proof.
  split; [cbn; lia|].
  assert (E : convert_xyz_latlon_to_enu [(Fin 0, Fin 0); (Fin 10, Fin 20)]
                [of_reals [3]%nat [1; 0; 0]%R]
              = Ok (of_reals [1; 3]%nat (rmat_vec (enu_rotation 0 0) [1; 0; 0]%R))).
  { unfold convert_xyz_latlon_to_enu. cbn [combine mapM].
    rewrite (rotate_vec_finite 0 0 [1; 0; 0]%R eq_refl). reflexivity. }
  split; [exact E|exact E].
Qed.

(** ** The 2x2 solve *)




Section Solve2.
Variables a00 a01 a10 a11 : R.
Let d : R := det2 a00 a01 a10 a11.


End Solve2.

(** ** The decomposition step *)

Lemma shape_eqb_refl (s : list nat) : shape_eqb s s = true.
Proof. unfold shape_eqb. destruct (list_eq_dec Nat.eq_dec s s); congruence. Qed.

Lemma shape_eqb_neq (s t : list nat) : s <> t -> shape_eqb s t = false.
Proof. intros H. unfold shape_eqb. destruct (list_eq_dec Nat.eq_dec s t); congruence. Qed.








Section Decompose.
Variables a00 a01 a10 a11 : R.
Variables nl nr nc : nat.
Variables asc desc : list R.
Let sh : list nat := [nl; nr; nc].
Hypothesis len_asc : length asc = size_of sh.
Hypothesis len_desc : length desc = size_of sh.



End Decompose.








(** C4 -- shape mismatch: whatever the two (east, up) coefficient 2-vectors
    hold, deformation stacks of different shapes fail the assertion; no
    stack is returned. *)
Theorem shape_mismatch_asserts (eu_asc eu_desc asc_deform desc_deform : ndarray) :
  shape eu_asc = [2%nat] -> shape eu_desc = [2%nat] ->
  shape asc_deform <> shape desc_deform ->
  find_vertical_def eu_asc eu_desc asc_deform desc_deform = Raise AssertionError.
Proof.
  intros Ha Hd Hne. unfold find_vertical_def, Linalg.vstack.
  rewrite Ha, Hd. cbn [Nat.eqb bind].
  now rewrite (shape_eqb_neq _ _ Hne).
Qed.

Lemma shape_mismatch_asserts_witness :
  find_vertical_def (of_reals [2]%nat [1; 2]%R) (of_reals [2]%nat [- (1); 2]%R)
    (mk_array [5; 10; 10]%nat (repeat (Fin 0) 500))
    (mk_array [5; 10; 11]%nat (repeat (Fin 0) 550))
  = Raise AssertionError.
Proof.
  apply (shape_mismatch_asserts (of_reals [2]%nat [1; 2]%R)
           (of_reals [2]%nat [- (1); 2]%R)
           (mk_array [5; 10; 10]%nat (repeat (Fin 0) 500))
           (mk_array [5; 10; 11]%nat (repeat (Fin 0) 550))
           eq_refl eq_refl).
  cbn [shape]. intros E. inversion E.
Defined.

(** ** Coefficient lookup *)

(** C10 -- with no map file given, [find_enu_coeffs] returns [None] for
    every longitude and latitude, whatever the other arguments and the
    files on disk: it neither raises nor derives coefficients from a
    vector. *)
Theorem find_enu_coeffs_without_map (files : string -> option los_map)
    (lon lat : npfloat) (geo_path : option string) (verbose : bool) :
  find_enu_coeffs files lon lat geo_path None verbose = Ok None.
Proof. reflexivity. Qed.

(** ** Merging date lists *)

Module DatesFacts.
Import Dates.

Lemma insert_perm (x : date) (l : list date) : Permutation (x :: l) (insert x l).
Proof.
  induction l as [|y t IH]; [reflexivity|].
  cbn [insert]. destruct (x <=? y)%Z; [reflexivity|].
  rewrite perm_swap. now apply perm_skip.
Qed.

Lemma sort_perm (l : list date) : Permutation l (sort l).
Proof.
  induction l as [|x t IH]; [reflexivity|].
  cbn [sort]. rewrite <- insert_perm. now apply perm_skip.
Qed.

Lemma sort_in (l : list date) (x : date) : In x (sort l) <-> In x l.
Proof.
  split; apply Permutation_in; [symmetry|]; apply sort_perm.
Qed.

Lemma insert_sorted (x : date) (l : list date) :
  StronglySorted Z.le l -> StronglySorted Z.le (insert x l).
Proof.
  induction 1 as [|y t Ht IH Hy]; cbn [insert].
  - repeat constructor.
  - destruct (x <=? y)%Z eqn:E.
    + apply Z.leb_le in E. constructor; [now constructor|].
      constructor; [exact E|].
      eapply Forall_impl; [|exact Hy]. intros z Hz. cbv beta in *. lia.
    + apply Z.leb_gt in E. constructor; [exact IH|].
      rewrite Forall_forall in *. intros z Hz.
      apply (Permutation_in _ (Permutation_sym (insert_perm x t))) in Hz.
      destruct Hz as [<- | Hz]; [lia|now apply Hy].
Qed.

Lemma sort_sorted (l : list date) : StronglySorted Z.le (sort l).
Proof.
  induction l as [|x t IH]; [constructor|]. now apply insert_sorted.
Qed.

Lemma drop_repeats_in (l : list date) (x : date) :
  In x (drop_repeats l) <-> In x l.
Proof.
  induction l as [|y t IH]; [reflexivity|].
  destruct t as [|z t']; [reflexivity|].
  change (drop_repeats (y :: z :: t'))
    with (if (y =? z)%Z then drop_repeats (z :: t') else y :: drop_repeats (z :: t')).
  destruct (y =? z)%Z eqn:E.
  - apply Z.eqb_eq in E. subst z. rewrite IH. cbn [In]. tauto.
  - cbn [In]. rewrite IH. cbn [In]. tauto.
Qed.

Lemma drop_repeats_strict (l : list date) :
  StronglySorted Z.le l -> StronglySorted Z.lt (drop_repeats l).
Proof.
  induction 1 as [|y t Ht IH Hy]; [constructor|].
  destruct t as [|z t']; [repeat constructor|].
  change (drop_repeats (y :: z :: t'))
    with (if (y =? z)%Z then drop_repeats (z :: t') else y :: drop_repeats (z :: t')).
  destruct (y =? z)%Z eqn:E; [exact IH|].
  apply Z.eqb_neq in E. constructor; [exact IH|].
  rewrite Forall_forall. intros w Hw.
  apply (proj1 (drop_repeats_in (z :: t') w)) in Hw.
  rewrite Forall_forall in Hy. pose proof (Hy z (or_introl eq_refl)) as Hyz.
  inversion Ht as [|? ? _ Hz]; subst. rewrite Forall_forall in Hz.
  cbn [In] in Hw. destruct Hw as [<- | Hw]; [lia|]. specialize (Hz w Hw). lia.
Qed.

Lemma filter_strict (f : date -> bool) (l : list date) :
  StronglySorted Z.lt l -> StronglySorted Z.lt (filter f l).
Proof.
  induction 1 as [|y t Ht IH Hy]; [constructor|].
  cbn [filter]. destruct (f y); [|exact IH].
  constructor; [exact IH|].
  rewrite Forall_forall in *. intros z Hz. apply filter_In in Hz. now apply Hy.
Qed.

(** A strictly increasing list is determined by its elements. *)
Lemma strict_sorted_ext (l1 l2 : list date) :
  StronglySorted Z.lt l1 -> StronglySorted Z.lt l2 ->
  (forall x, In x l1 <-> In x l2) -> l1 = l2.
Proof.
  intros H1. revert l2.
  induction H1 as [|x1 t1 Ht1 IH Hx1]; intros l2 H2 Hin.
  - destruct l2 as [|x2 t2]; [reflexivity|].
    exfalso. apply (Hin x2). left; reflexivity.
  - destruct H2 as [|x2 t2 Ht2 Hx2].
    + exfalso. apply (Hin x1). left; reflexivity.
    + rewrite Forall_forall in Hx1, Hx2.
      assert (E : x1 = x2).
      { destruct (proj1 (Hin x1) (or_introl eq_refl)) as [E|I2]; [now symmetry|].
        destruct (proj2 (Hin x2) (or_introl eq_refl)) as [E|I1]; [exact E|].
        specialize (Hx2 _ I2). specialize (Hx1 _ I1). lia. }
      subst x2. f_equal. apply IH; [exact Ht2|].
      intros z. split; intros Hz.
      * destruct (proj1 (Hin z) (or_intror Hz)) as [E|I]; [|exact I].
        specialize (Hx1 _ Hz). lia.
      * destruct (proj2 (Hin z) (or_intror Hz)) as [E|I]; [|exact I].
        specialize (Hx2 _ Hz). lia.
Qed.

Lemma existsb_eqb_in (x : date) (l : list date) :
  existsb (Z.eqb x) l = true <-> In x l.
Proof.
  rewrite existsb_exists. split.
  - intros (y & Hy & E). apply Z.eqb_eq in E. now subst.
  - intros H. exists x. split; [exact H|apply Z.eqb_refl].
Qed.

Lemma index_of_spec (x : date) (l : list date) (d : date) :
  In x l -> (index_of x l < length l)%nat /\ nth (index_of x l) l d = x.
Proof.
  induction l as [|y t IH]; [intros []|]. intros H.
  cbn [index_of]. destruct (x =? y)%Z eqn:E.
  - apply Z.eqb_eq in E. subst. cbn. split; [lia|reflexivity].
  - apply Z.eqb_neq in E. destruct H as [H|H]; [congruence|].
    destruct (IH H) as [L N]. cbn [length nth]. split; [lia|exact N].
Qed.

(** The values common to [a] and a strictly increasing [b] drawn from [a]
    are [b] itself, in order. *)
Lemma intersect1d_subset (a b : list date) :
  StronglySorted Z.lt b -> (forall x, In x b -> In x a) ->
  intersect1d a b = (b, map (fun x => index_of x a) b, map (fun x => index_of x b) b).
Proof.
  intros Hb Hsub. unfold intersect1d.
  assert (E : filter (fun x => existsb (Z.eqb x) b) (unique a) = b).
  { apply strict_sorted_ext; [|exact Hb|].
    - apply filter_strict, drop_repeats_strict, sort_sorted.
    - intros x. rewrite filter_In, existsb_eqb_in. unfold unique.
      rewrite drop_repeats_in, sort_in. split; [tauto|]. intros H. split; auto. }
  now rewrite E.
Qed.

Lemma index_map_valid (a b : list date) (i : nat) :
  (forall x, In x b -> In x a) -> (i < length b)%nat ->
  let idx := map (fun x => index_of x a) b in
  (nth i idx 0 < length a)%nat /\ nth (nth i idx 0%nat) a 0%Z = nth i b 0%Z.
Proof.
  intros Hsub Hi idx. unfold idx.
  rewrite (nth_indep _ 0%nat (index_of 0%Z a)) by (now rewrite length_map).
  rewrite (map_nth (fun x => index_of x a)).
  apply index_of_spec, Hsub, nth_In, Hi.
Qed.

End DatesFacts.

(** C9 -- merging two date axes (strictly increasing lists of dates): the
    first component is the concatenation of the two axes sorted, nothing
    removed, so that merging an axis with itself gives twice its length; the
    two index maps have one entry per date of their axis, and entry [i] is a
    position of the merged axis that holds date [i] of that axis. *)
Theorem merge_geolists_spec (geolist1 geolist2 : list Dates.date) :
  StronglySorted Z.lt geolist1 -> StronglySorted Z.lt geolist2 ->
  let merged := fst (fst (merge_geolists geolist1 geolist2)) in
  let indices1 := snd (fst (merge_geolists geolist1 geolist2)) in
  let indices2 := snd (merge_geolists geolist1 geolist2) in
  Permutation (geolist1 ++ geolist2) merged /\
  StronglySorted Z.le merged /\
  length merged = (length geolist1 + length geolist2)%nat /\
  length (fst (fst (merge_geolists geolist1 geolist1))) = (2 * length geolist1)%nat /\
  length indices1 = length geolist1 /\
  length indices2 = length geolist2 /\
  (forall i, (i < length geolist1)%nat ->
     (nth i indices1 0 < length merged)%nat /\
     nth (nth i indices1 0%nat) merged 0%Z = nth i geolist1 0%Z) /\
  (forall i, (i < length geolist2)%nat ->
     (nth i indices2 0 < length merged)%nat /\
     nth (nth i indices2 0%nat) merged 0%Z = nth i geolist2 0%Z).
Proof.
  intros H1 H2.
  assert (S1 : forall x, In x geolist1 -> In x (Dates.sort (geolist1 ++ geolist2))).
  { intros x Hx. apply DatesFacts.sort_in, in_or_app. now left. }
  assert (S2 : forall x, In x geolist2 -> In x (Dates.sort (geolist1 ++ geolist2))).
  { intros x Hx. apply DatesFacts.sort_in, in_or_app. now right. }
  assert (L : forall l, length (Dates.sort l) = length l).
  { intros l. symmetry. apply Permutation_length, DatesFacts.sort_perm. }
  unfold merge_geolists.
  rewrite (DatesFacts.intersect1d_subset _ geolist1 H1 S1).
  rewrite (DatesFacts.intersect1d_subset _ geolist2 H2 S2).
  assert (S11 : forall x, In x geolist1 -> In x (Dates.sort (geolist1 ++ geolist1))).
  { intros x Hx. apply DatesFacts.sort_in, in_or_app. now left. }
  rewrite (DatesFacts.intersect1d_subset _ geolist1 H1 S11).
  cbn [fst snd].
  split; [apply DatesFacts.sort_perm|].
  split; [apply DatesFacts.sort_sorted|].
  split; [now rewrite L, length_app|].
  split; [rewrite L, length_app; lia|].
  split; [apply length_map|].
  split; [apply length_map|].
  split; intros i Hi.
  - exact (DatesFacts.index_map_valid _ geolist1 i S1 Hi).
  - exact (DatesFacts.index_map_valid _ geolist2 i S2 Hi).
Qed.

Lemma merge_geolists_spec_witness :
  merge_geolists [1; 5; 9]%Z [5; 7]%Z
    = ([1; 5; 5; 7; 9]%Z, [0; 1; 4]%nat, [1; 3]%nat) /\
  Permutation ([1; 5; 9] ++ [5; 7])%Z
    (fst (fst (merge_geolists [1; 5; 9]%Z [5; 7]%Z))).
Proof.
  split; [reflexivity|].
  assert (H1 : StronglySorted Z.lt [1; 5; 9]%Z)
    by (repeat constructor; lia).
  assert (H2 : StronglySorted Z.lt [5; 7]%Z)
    by (repeat constructor; lia).
  exact (proj1 (merge_geolists_spec [1; 5; 9]%Z [5; 7]%Z H1 H2)).
Defined.

(* ================================================================== *)
(** * Part III: further properties of los.py                           *)
(* ================================================================== *)

(** ** [rot]: errors and algebra *)

(** X1 -- an axis other than 1, 2, 3 is refused with ValueError, whatever
    the angle (finite or not) and the unit. *)
Theorem rot_invalid_axis (angle : npfloat) (axis : Z) (in_degrees : bool) :
  axis <> 1%Z -> axis <> 2%Z -> axis <> 3%Z ->
  rot angle axis in_degrees = Raise ValueError.
Proof.
  intros H1 H2 H3. unfold rot.
  apply Z.eqb_neq in H1, H2, H3. now rewrite H1, H2, H3.
Qed.

Lemma rot_invalid_axis_witness :
  rot (Fin 30) 0 true = Raise ValueError /\ rot NaN 4 false = Raise ValueError.
Proof.
  split; apply rot_invalid_axis; discriminate.
Defined.

Lemma matmul_3x3_3x3 (a b : list R) :
  length a = 9%nat -> length b = 9%nat ->
  Np.matmul (of_reals [3; 3]%nat a) (of_reals [3; 3]%nat b)
  = Ok (of_reals [3; 3]%nat (rmat_mul a b)).
Proof. intros Ha Hb. exact (matmul_3x3_batch a b 3 Ha Hb). Qed.

Lemma radians_plus (a b : R) (deg : bool) :
  radians (a + b) deg = (radians a deg + radians b deg)%R.
Proof. unfold radians. destruct deg; ring. Qed.

Lemma radians_opp (a : R) (deg : bool) : radians (- a) deg = (- radians a deg)%R.
Proof. unfold radians. destruct deg; ring. Qed.

Lemma radians_0 (deg : bool) : radians 0 deg = 0%R.
Proof. unfold radians. destruct deg; ring. Qed.

Ltac real_list_eq :=
  repeat (apply (f_equal2 cons); [try ring|]); try reflexivity.

Lemma axis_rotation_mul (axis : Z) (s t : R) :
  (axis = 1 \/ axis = 2 \/ axis = 3)%Z ->
  rmat_mul (axis_rotation axis s) (axis_rotation axis t) = axis_rotation axis (s + t).
Proof.
  intros [-> | [-> | ->]];
    cbv [axis_rotation rmat_mul rentry rsum3 Np.tabulate2 flat_map seq map nth
         Nat.mul Nat.add app Z.eqb Pos.eqb];
    rewrite cos_plus, sin_plus; real_list_eq.
Qed.

Lemma axis_rotation_0 (axis : Z) : axis_rotation axis 0 = ridentity.
Proof.
  unfold axis_rotation, ridentity. rewrite cos_0, sin_0, Ropp_0.
  destruct (axis =? 1)%Z; [reflexivity|]. destruct (axis =? 2)%Z; reflexivity.
Qed.

Lemma axis_rotation_opp (axis : Z) (t : R) :
  (axis = 1 \/ axis = 2 \/ axis = 3)%Z ->
  axis_rotation axis (- t) = rtranspose (axis_rotation axis t).
Proof.
  intros [-> | [-> | ->]];
    cbv [axis_rotation rtranspose rentry Np.tabulate2 flat_map seq map nth
         Nat.mul Nat.add app Z.eqb Pos.eqb];
    rewrite cos_neg, sin_neg; real_list_eq.
Qed.

Lemma rot_product_finite (alpha beta : R) (axis : Z) (in_degrees : bool) :
  (axis = 1 \/ axis = 2 \/ axis = 3)%Z ->
  (A <- rot (Fin alpha) axis in_degrees ;;
   B <- rot (Fin beta) axis in_degrees ;;
   Np.matmul A B)
  = Ok (of_reals [3; 3]%nat
          (axis_rotation axis (radians alpha in_degrees + radians beta in_degrees))).
Proof.
  intros Hax. rewrite !rot_finite by exact Hax. cbn [bind].
  rewrite matmul_3x3_3x3 by apply length_axis_rotation.
  now rewrite axis_rotation_mul.
Qed.

(** X2 -- rotations about one axis compose by adding their angles: the
    matrix product of rot(alpha, a) and rot(beta, a) is rot(alpha + beta, a),
    in degrees as in radians. *)
Theorem rot_compose (alpha beta : R) (axis : Z) (in_degrees : bool) :
  (axis = 1 \/ axis = 2 \/ axis = 3)%Z ->
  (A <- rot (Fin alpha) axis in_degrees ;;
   B <- rot (Fin beta) axis in_degrees ;;
   Np.matmul A B)
  = rot (Fin (alpha + beta)) axis in_degrees.
Proof.
  intros Hax. rewrite (rot_product_finite alpha beta axis in_degrees Hax).
  now rewrite rot_finite, radians_plus by exact Hax.
Qed.

Lemma rot_compose_witness :
  (A <- rot (Fin 30) 3 true ;; B <- rot (Fin 60) 3 true ;; Np.matmul A B)
  = rot (Fin (30 + 60)) 3 true.
Proof. apply (rot_compose 30 60 3 true). right; right; reflexivity. Defined.

(** X3 -- the rotation by the opposite angle is the transpose and the
    inverse: rot(-theta, a) holds the transposed entries of rot(theta, a),
    their product is [np.eye(3)], and rot(0, a) is [np.eye(3)]. *)
Theorem rot_opposite_is_inverse (theta : R) (axis : Z) (in_degrees : bool) :
  (axis = 1 \/ axis = 2 \/ axis = 3)%Z ->
  exists m : list R,
    rot (Fin theta) axis in_degrees = Ok (of_reals [3; 3]%nat m) /\
    rot (Fin (- theta)) axis in_degrees = Ok (of_reals [3; 3]%nat (rtranspose m)) /\
    (A <- rot (Fin (- theta)) axis in_degrees ;;
     B <- rot (Fin theta) axis in_degrees ;;
     Np.matmul A B) = Ok (Np.eye 3) /\
    rot (Fin 0) axis in_degrees = Ok (Np.eye 3).
Proof.
  intros Hax. exists (axis_rotation axis (radians theta in_degrees)).
  split; [exact (rot_finite theta axis in_degrees Hax)|].
  split; [rewrite rot_finite, radians_opp, axis_rotation_opp by exact Hax;
          reflexivity|].
  split.
  - rewrite (rot_product_finite (- theta) theta axis in_degrees Hax).
    rewrite radians_opp.
    replace (- radians theta in_degrees + radians theta in_degrees)%R
      with 0%R by ring.
    rewrite axis_rotation_0. reflexivity.
  - rewrite rot_finite, radians_0, axis_rotation_0 by exact Hax. reflexivity.
Qed.

Lemma rot_opposite_is_inverse_witness :
  exists m : list R,
    rot (Fin 40) 1 true = Ok (of_reals [3; 3]%nat m) /\
    rot (Fin (- 40)) 1 true = Ok (of_reals [3; 3]%nat (rtranspose m)) /\
    (A <- rot (Fin (- 40)) 1 true ;; B <- rot (Fin 40) 1 true ;; Np.matmul A B)
      = Ok (Np.eye 3) /\
    rot (Fin 0) 1 true = Ok (Np.eye 3).
Proof. apply (rot_opposite_is_inverse 40 1 true). left; reflexivity. Defined.

(** X4 -- a rotation leaves its own axis in place: rot(theta, a) applied to
    the unit vector along axis a returns that vector. *)
Theorem rot_fixes_axis (theta : R) (axis : Z) (in_degrees : bool) :
  (axis = 1 \/ axis = 2 \/ axis = 3)%Z ->
  (A <- rot (Fin theta) axis in_degrees ;;
   Np.matmul A (of_reals [3]%nat (unit_vector axis)))
  = Ok (of_reals [3]%nat (unit_vector axis)).
Proof.
  intros Hax. rewrite rot_finite by exact Hax. cbn [bind].
  rewrite matmul_3x3_vec;
    [|apply length_axis_rotation
     |destruct Hax as [-> | [-> | ->]]; reflexivity].
  do 2 f_equal.
  destruct Hax as [-> | [-> | ->]];
    cbv [axis_rotation unit_vector rmat_vec rentry rsum3 seq map nth
         Nat.mul Nat.add Z.eqb Pos.eqb];
    real_list_eq.
Qed.

Lemma rot_fixes_axis_witness :
  (A <- rot (Fin 75) 2 false ;; Np.matmul A (of_reals [3]%nat (unit_vector 2)))
  = Ok (of_reals [3]%nat (unit_vector 2)).
Proof. apply (rot_fixes_axis 75 2 false). right; left; reflexivity. Defined.

(** ** [rotate_xyz_to_enu]: closed form, isometry, shapes, inverse *)

Lemma cos_quarter_plus (x : R) : cos (PI / 2 + x) = (- sin x)%R.
Proof. rewrite cos_plus, cos_PI2, sin_PI2. ring. Qed.

Lemma sin_quarter_plus (x : R) : sin (PI / 2 + x) = cos x.
Proof. rewrite sin_plus, cos_PI2, sin_PI2. ring. Qed.

Lemma radians_colatitude (lat : R) :
  radians (90 - lat) true = (PI / 2 - lat * (PI / 180))%R.
Proof. unfold radians. field. Qed.

Lemma radians_east_longitude (lon : R) :
  radians (90 + lon) true = (PI / 2 + lon * (PI / 180))%R.
Proof. unfold radians. field. Qed.

Lemma enu_rotation_closed_form (lat lon : R) (v : list R) :
  length v = 3%nat ->
  rmat_vec (enu_rotation lat lon) v = ecef_to_enu lat lon v.
Proof.
  intros Hv.
  do 3 (destruct v as [|? v]; [discriminate Hv|]).
  destruct v; [clear Hv|discriminate Hv].
  unfold enu_rotation. rewrite radians_colatitude, radians_east_longitude.
  cbv [axis_rotation rmat_mul rmat_vec ecef_to_enu rentry rsum3 Np.tabulate2
       flat_map seq map nth Nat.mul Nat.add app Z.eqb Pos.eqb].
  rewrite cos_shift, sin_shift, cos_quarter_plus, sin_quarter_plus.
  real_list_eq.
Qed.

(** X5 -- [rotate_xyz_to_enu] is the standard ECEF-to-ENU transformation:
    with phi, lambda the latitude and longitude in radians,
    E = -sin(lambda) x + cos(lambda) y,
    N = -sin(phi) cos(lambda) x - sin(phi) sin(lambda) y + cos(phi) z,
    U = cos(phi) cos(lambda) x + cos(phi) sin(lambda) y + sin(phi) z. *)
Theorem rotate_xyz_to_enu_closed_form (lat lon : R) (v : list R) :
  length v = 3%nat ->
  rotate_xyz_to_enu (of_reals [3]%nat v) (Fin lat) (Fin lon)
  = Ok (of_reals [3]%nat (ecef_to_enu lat lon v)).
Proof.
  intros Hv. rewrite (rotate_vec_finite lat lon v Hv).
  now rewrite (enu_rotation_closed_form lat lon v Hv).
Qed.

Lemma rotate_xyz_to_enu_closed_form_witness :
  rotate_xyz_to_enu (of_reals [3]%nat [1; 2; 3]%R) (Fin 45) (Fin 10)
  = Ok (of_reals [3]%nat (ecef_to_enu 45 10 [1; 2; 3]%R)).
Proof. apply (rotate_xyz_to_enu_closed_form 45 10 [1; 2; 3]%R). reflexivity. Defined.

Lemma sum_squares_3 (a b c : R) :
  sum_squares [a; b; c] = (a * a + b * b + c * c)%R.
Proof. unfold sum_squares. cbn [fold_left]. ring. Qed.

Lemma planar_isometry (c s x y : R) :
  (s * s + c * c = 1)%R ->
  ((c * x + s * y) * (c * x + s * y) + (- s * x + c * y) * (- s * x + c * y)
   = x * x + y * y)%R.
Proof.
  intros H.
  transitivity ((s * s + c * c) * (x * x + y * y))%R; [ring|].
  rewrite H. ring.
Qed.

Lemma axis_rotation_isometry (axis : Z) (t : R) (v : list R) :
  (axis = 1 \/ axis = 2 \/ axis = 3)%Z -> length v = 3%nat ->
  sum_squares (rmat_vec (axis_rotation axis t) v) = sum_squares v.
Proof.
  intros Hax Hv.
  do 3 (destruct v as [|? v]; [discriminate Hv|]).
  destruct v; [clear Hv|discriminate Hv].
  pose proof (sin_cos_unit t) as Hu.
  destruct Hax as [-> | [-> | ->]];
    cbv [axis_rotation rmat_vec rentry rsum3 seq map nth Nat.mul Nat.add
         Z.eqb Pos.eqb];
    rewrite !sum_squares_3.
  - pose proof (planar_isometry (cos t) (sin t) r0 r1 Hu). nra.
  - pose proof (planar_isometry (cos t) (sin t) r1 r Hu). nra.
  - pose proof (planar_isometry (cos t) (sin t) r r0 Hu). nra.
Qed.

Lemma enu_rotation_isometry (lat lon : R) (v : list R) :
  length v = 3%nat ->
  sum_squares (rmat_vec (enu_rotation lat lon) v) = sum_squares v.
Proof.
  intros Hv. unfold enu_rotation. rewrite <- rmat_vec_assoc.
  rewrite axis_rotation_isometry by (tauto || reflexivity).
  apply axis_rotation_isometry; [tauto|exact Hv].
Qed.

(** X6 -- [rotate_xyz_to_enu] is an isometry: the rotated vector has the
    Euclidean norm of the input vector. *)
Theorem rotate_xyz_to_enu_preserves_norm (lat lon : R) (v : list R) :
  length v = 3%nat ->
  exists enu : list R,
    rotate_xyz_to_enu (of_reals [3]%nat v) (Fin lat) (Fin lon)
      = Ok (of_reals [3]%nat enu) /\
    length enu = 3%nat /\
    euclid_norm enu = euclid_norm v.
Proof.
  intros Hv. exists (rmat_vec (enu_rotation lat lon) v).
  split; [exact (rotate_vec_finite lat lon v Hv)|].
  split; [reflexivity|].
  unfold euclid_norm. now rewrite enu_rotation_isometry.
Qed.

Lemma rotate_xyz_to_enu_preserves_norm_witness :
  exists enu : list R,
    rotate_xyz_to_enu (of_reals [3]%nat [3; 0; 4]%R) (Fin 20) (Fin (- 100))
      = Ok (of_reals [3]%nat enu) /\
    length enu = 3%nat /\
    euclid_norm enu = euclid_norm [3; 0; 4]%R.
Proof.
  apply (rotate_xyz_to_enu_preserves_norm 20 (- 100) [3; 0; 4]%R). reflexivity.
Defined.

(** X7 -- shapes accepted by [rotate_xyz_to_enu], whatever the numbers
    (finite or not): a 3-vector gives a 3-vector, a (3,k) batch gives a
    (3,k) batch, and an input whose first dimension is not 3 is refused with
    ValueError. *)
Theorem rotate_xyz_to_enu_shapes (v vk bad : ndarray) (lat lon : npfloat)
    (m k k' : nat) :
  shape v = [3%nat] -> shape vk = [3%nat; k] ->
  m <> 3%nat -> (shape bad = [m] \/ shape bad = [m; k']) ->
  (exists out, rotate_xyz_to_enu v lat lon = Ok out /\
     shape out = [3%nat] /\ length (data out) = 3%nat) /\
  (exists out, rotate_xyz_to_enu vk lat lon = Ok out /\
     shape out = [3%nat; k] /\ length (data out) = (3 * k)%nat) /\
  rotate_xyz_to_enu bad lat lon = Raise ValueError.
Proof.
  intros Hv Hvk Hm Hbad.
  unfold rotate_xyz_to_enu. rewrite rot_axis3, rot_axis1. cbn [bind].
  unfold Np.matmul. cbn [shape].
  split; [|split].
  - rewrite Hv. cbn [Nat.eqb bind shape]. eexists. split; [reflexivity|].
    split; reflexivity.
  - rewrite Hvk. cbn [Nat.eqb bind shape]. eexists. split; [reflexivity|].
    split; [reflexivity|]. cbn [data]. apply length_tabulate2.
  - assert (E : Nat.eqb 3 m = false) by (apply Nat.eqb_neq; congruence).
    destruct Hbad as [-> | ->]; rewrite E; reflexivity.
Qed.

Lemma rotate_xyz_to_enu_shapes_witness :
  (exists out, rotate_xyz_to_enu (mk_array [3%nat] [Fin 1; NaN; Inf true]) NaN (Fin 7)
                 = Ok out /\ shape out = [3%nat] /\ length (data out) = 3%nat) /\
  rotate_xyz_to_enu (of_reals [2]%nat [1; 2]%R) (Fin 0) (Fin 0) = Raise ValueError.
Proof.
  destruct (rotate_xyz_to_enu_shapes
              (mk_array [3%nat] [Fin 1; NaN; Inf true])
              (of_reals [3; 0]%nat []) (of_reals [2]%nat [1; 2]%R)
              NaN (Fin 7) 2 0 0 eq_refl eq_refl) as (H1 & _ & _);
    [discriminate | left; reflexivity |].
  destruct (rotate_xyz_to_enu_shapes
              (of_reals [3]%nat [1; 2; 3]%R)
              (of_reals [3; 0]%nat []) (of_reals [2]%nat [1; 2]%R)
              (Fin 0) (Fin 0) 2 0 0 eq_refl eq_refl) as (_ & _ & H3);
    [discriminate | left; reflexivity |].
  split; [exact H1 | exact H3].
Defined.

(** X8 -- a batch is rotated column by column: column [j] of the rotated
    (3,k) batch is the rotation of column [j] of the input. *)
Theorem rotate_xyz_to_enu_columnwise (lat lon : R) (k : nat) (vk : list R) (j : nat) :
  length vk = (3 * k)%nat -> (j < k)%nat ->
  exists out col : list R,
    rotate_xyz_to_enu (of_reals [3; k]%nat vk) (Fin lat) (Fin lon)
      = Ok (of_reals [3; k]%nat out) /\
    rotate_xyz_to_enu (of_reals [3]%nat (column3 k vk j)) (Fin lat) (Fin lon)
      = Ok (of_reals [3]%nat col) /\
    column3 k out j = col.
Proof.
  intros Hk Hj.
  exists (rmat_batch (enu_rotation lat lon) k vk),
         (rmat_vec (enu_rotation lat lon) (column3 k vk j)).
  split; [exact (rotate_batch_finite lat lon k vk Hk)|].
  split; [exact (rotate_vec_finite lat lon (column3 k vk j) eq_refl)|].
  unfold column3 at 1, rentry at 1 2 3, rmat_batch.
  rewrite !nth_tabulate2 by lia. reflexivity.
Qed.

Lemma rotate_xyz_to_enu_columnwise_witness :
  exists out col : list R,
    rotate_xyz_to_enu (of_reals [3; 2]%nat [1; 2; 3; 4; 5; 6]%R) (Fin 45) (Fin 10)
      = Ok (of_reals [3; 2]%nat out) /\
    rotate_xyz_to_enu (of_reals [3]%nat (column3 2 [1; 2; 3; 4; 5; 6]%R 1))
        (Fin 45) (Fin 10)
      = Ok (of_reals [3]%nat col) /\
    column3 2 out 1 = col.
Proof.
  apply (rotate_xyz_to_enu_columnwise 45 10 2 [1; 2; 3; 4; 5; 6]%R 1);
    [reflexivity | lia].
Defined.

Lemma rmat_vec_identity (v : list R) :
  length v = 3%nat -> rmat_vec ridentity v = v.
Proof.
  intros Hv.
  do 3 (destruct v as [|? v]; [discriminate Hv|]).
  destruct v; [clear Hv|discriminate Hv].
  cbv [rmat_vec ridentity rentry rsum3 seq map nth Nat.mul Nat.add].
  real_list_eq.
Qed.

Lemma axis_rotation_undo (axis : Z) (t : R) (v : list R) :
  (axis = 1 \/ axis = 2 \/ axis = 3)%Z -> length v = 3%nat ->
  rmat_vec (axis_rotation axis (- t)) (rmat_vec (axis_rotation axis t) v) = v.
Proof.
  intros Hax Hv.
  rewrite rmat_vec_assoc, axis_rotation_mul by exact Hax.
  replace (- t + t)%R with 0%R by ring.
  rewrite axis_rotation_0. exact (rmat_vec_identity v Hv).
Qed.

(** X9 -- the rotation is undone by the two opposite rotations in reverse
    order: rot(-(90 + lon), 3) . rot(-(90 - lat), 1) applied to
    [rotate_xyz_to_enu(xyz, lat, lon)] gives [xyz] back. *)
Theorem rotate_xyz_to_enu_undone (lat lon : R) (v : list R) :
  length v = 3%nat ->
  (enu <- rotate_xyz_to_enu (of_reals [3]%nat v) (Fin lat) (Fin lon) ;;
   R1' <- rot (Fin (- (90 - lat))) 1 true ;;
   R3' <- rot (Fin (- (90 + lon))) 3 true ;;
   t <- Np.matmul R1' enu ;;
   Np.matmul R3' t)
  = Ok (of_reals [3]%nat v).
Proof.
  intros Hv. rewrite (rotate_vec_finite lat lon v Hv). cbn [bind].
  rewrite !rot_finite by tauto. cbn [bind].
  rewrite matmul_3x3_vec by (apply length_axis_rotation || reflexivity).
  cbn [bind].
  rewrite matmul_3x3_vec by (apply length_axis_rotation || reflexivity).
  do 2 f_equal. unfold enu_rotation.
  rewrite <- (rmat_vec_assoc (axis_rotation 1 (radians (90 - lat) true))).
  rewrite !radians_opp.
  rewrite axis_rotation_undo by (tauto || reflexivity).
  apply axis_rotation_undo; [tauto|exact Hv].
Qed.

Lemma rotate_xyz_to_enu_undone_witness :
  (enu <- rotate_xyz_to_enu (of_reals [3]%nat [1; 2; 3]%R) (Fin 45) (Fin 10) ;;
   R1' <- rot (Fin (- (90 - 45))) 1 true ;;
   R3' <- rot (Fin (- (90 + 10))) 3 true ;;
   t <- Np.matmul R1' enu ;;
   Np.matmul R3' t)
  = Ok (of_reals [3]%nat [1; 2; 3]%R).
Proof. apply (rotate_xyz_to_enu_undone 45 10 [1; 2; 3]%R). reflexivity. Defined.

(** ** [project_enu_to_los] with a raw line-of-sight vector *)





Lemma ecef_to_enu_origin (v : list R) :
  ecef_to_enu 0 0 v = [nth 1 v 0; nth 2 v 0; nth 0 v 0]%R.
Proof.
  unfold ecef_to_enu. replace (0 * (PI / 180))%R with 0%R by ring.
  rewrite sin_0, cos_0. real_list_eq.
Qed.

Lemma project_at_origin (e n u : R) (v : list R) :
  length v = 3%nat -> euclid_norm v = 1%R ->
  project_enu_to_los (of_reals [3]%nat [e; n; u]) (Some (of_reals [3]%nat v))
    (Some (Fin 0)) (Some (Fin 0)) None
  = Ok (of_reals [] [(nth 1 v 0 * e + nth 2 v 0 * n + nth 0 v 0 * u)%R]).
Proof.
  intros Hv Hn. unfold project_enu_to_los.
  rewrite linalg_norm_finite, Hn, divide_scalar_finite by lra.
  rewrite rotate_vec_finite, enu_rotation_closed_form by (now rewrite length_map).
  cbn [bind]. rewrite ecef_to_enu_origin, dot_vec_vec by reflexivity.
  do 3 (destruct v as [|? v]; [discriminate Hv|]).
  destruct v; [clear Hv|discriminate Hv].
  unfold rdot3, rsum3, of_reals. cbn [map nth]. fin_array_eq.
  all: apply (f_equal2 cons); [apply (f_equal Fin); field|reflexivity].
Qed.

(** X11 -- the axis convention at latitude 0, longitude 0: the ECEF X axis
    is Up, Y is East and Z is North.  Projecting the ENU vector (e, n, u) on
    the line-of-sight vectors [1,0,0], [0,1,0], [0,0,1] gives u, e and n. *)
Theorem project_enu_to_los_axes_at_origin (e n u : R) :
  project_enu_to_los (of_reals [3]%nat [e; n; u]) (Some (of_reals [3]%nat [1; 0; 0]%R))
    (Some (Fin 0)) (Some (Fin 0)) None = Ok (of_reals [] [u]) /\
  project_enu_to_los (of_reals [3]%nat [e; n; u]) (Some (of_reals [3]%nat [0; 1; 0]%R))
    (Some (Fin 0)) (Some (Fin 0)) None = Ok (of_reals [] [e]) /\
  project_enu_to_los (of_reals [3]%nat [e; n; u]) (Some (of_reals [3]%nat [0; 0; 1]%R))
    (Some (Fin 0)) (Some (Fin 0)) None = Ok (of_reals [] [n]).
Proof.
  assert (N : forall a b c : R, (a * a + b * b + c * c = 1)%R ->
                euclid_norm [a; b; c] = 1%R).
  { intros a b c H. unfold euclid_norm. rewrite sum_squares_3, H. apply sqrt_1. }
  repeat split; rewrite project_at_origin by (reflexivity || (apply N; ring));
    cbn [nth]; fin_array_eq.
Qed.

(** ** [_find_nearest] *)






(** ** [merge_geolists]: the index maps in general *)

Module IndexMaps.
Import Dates DatesFacts.

Lemma unique_in (l : list date) (x : date) : In x (unique l) <-> In x l.
Proof. unfold unique. now rewrite drop_repeats_in, sort_in. Qed.

Lemma unique_strict (l : list date) : StronglySorted Z.lt (unique l).
Proof. apply drop_repeats_strict, sort_sorted. Qed.

Lemma length_drop_repeats (l : list date) :
  (length (drop_repeats l) <= length l)%nat.
Proof.
  induction l as [|y t IH]; [reflexivity|].
  destruct t as [|z t']; [reflexivity|].
  change (drop_repeats (y :: z :: t'))
    with (if (y =? z)%Z then drop_repeats (z :: t') else y :: drop_repeats (z :: t')).
  destruct (y =? z)%Z; cbn [length] in *; lia.
Qed.

Lemma length_unique (l : list date) : (length (unique l) <= length l)%nat.
Proof.
  unfold unique. etransitivity; [apply length_drop_repeats|].
  now rewrite <- (Permutation_length (sort_perm l)).
Qed.

(** The values common to [a] and any [b] drawn from [a] are the distinct
    values of [b] in increasing order. *)
Lemma intersect1d_drawn (a b : list date) :
  (forall x, In x b -> In x a) ->
  intersect1d a b
  = (unique b, map (fun x => index_of x a) (unique b),
               map (fun x => index_of x b) (unique b)).
Proof.
  intros Hsub. unfold intersect1d.
  assert (E : filter (fun x => existsb (Z.eqb x) b) (unique a) = unique b).
  { apply strict_sorted_ext.
    - apply filter_strict, unique_strict.
    - apply unique_strict.
    - intros x. rewrite filter_In, existsb_eqb_in, !unique_in.
      split; [tauto|]. intros H. split; auto. }
  now rewrite E.
Qed.

Lemma index_of_increasing (a : list date) (x y : date) :
  StronglySorted Z.le a -> In x a -> In y a -> (x < y)%Z ->
  (index_of x a < index_of y a)%nat.
Proof.
  induction 1 as [|h t Ht IH Hh]; intros Hx Hy Hlt; [destruct Hx|].
  rewrite Forall_forall in Hh. cbn [index_of].
  destruct (x =? h)%Z eqn:Ex.
  - apply Z.eqb_eq in Ex. subst h.
    destruct (y =? x)%Z eqn:Ey; [apply Z.eqb_eq in Ey; lia|lia].
  - apply Z.eqb_neq in Ex.
    destruct Hx as [Hx|Hx]; [congruence|].
    pose proof (Hh x Hx) as Hhx.
    destruct (y =? h)%Z eqn:Ey; [apply Z.eqb_eq in Ey; lia|].
    apply Z.eqb_neq in Ey. destruct Hy as [Hy|Hy]; [congruence|].
    specialize (IH Hx Hy Hlt). lia.
Qed.

Lemma index_map_increasing (a l : list date) :
  StronglySorted Z.le a -> StronglySorted Z.lt l -> (forall x, In x l -> In x a) ->
  StronglySorted Nat.lt (map (fun x => index_of x a) l).
Proof.
  intros Ha Hl. induction Hl as [|x t Ht IH Hx]; intros Hsub; [constructor|].
  cbn [map]. constructor.
  - apply IH. intros z Hz. apply Hsub. now right.
  - rewrite Forall_forall in *. intros i Hi.
    apply in_map_iff in Hi. destruct Hi as (y & <- & Hy).
    apply index_of_increasing; [exact Ha| | |now apply Hx].
    + apply Hsub. now left.
    + apply Hsub. now right.
Qed.

Lemma index_map_reads_back (a l : list date) :
  (forall x, In x l -> In x a) ->
  map (fun i => nth i a 0%Z) (map (fun x => index_of x a) l) = l /\
  Forall (fun i => (i < length a)%nat) (map (fun x => index_of x a) l).
Proof.
  intros Hsub. split.
  - rewrite map_map. rewrite <- (map_id l) at 2. apply map_ext_in.
    intros x Hx. apply index_of_spec, Hsub, Hx.
  - rewrite Forall_forall. intros i Hi.
    apply in_map_iff in Hi. destruct Hi as (x & <- & Hx).
    apply (index_of_spec x a 0%Z), Hsub, Hx.
Qed.

Lemma index_of_first (x : date) (l : list date) (p : nat) :
  (p < index_of x l)%nat -> nth p l 0%Z <> x.
Proof.
  revert p. induction l as [|y t IH]; intros p Hp; [cbn in Hp; lia|].
  cbn [index_of] in Hp. destruct (x =? y)%Z eqn:E; [lia|].
  apply Z.eqb_neq in E. destruct p as [|p]; cbn [nth]; [congruence|].
  apply IH. lia.
Qed.

Lemma strict_sorted_count (l : list date) (x : date) :
  StronglySorted Z.lt l -> In x l -> count_occ Z.eq_dec l x = 1%nat.
Proof.
  induction 1 as [|y t Ht IH Hy]; intros Hx; [destruct Hx|].
  rewrite Forall_forall in Hy. cbn [count_occ].
  destruct (Z.eq_dec y x) as [->|N].
  - f_equal. apply count_occ_not_In. intros Hin. specialize (Hy x Hin). lia.
  - destruct Hx as [Hx|Hx]; [congruence|]. exact (IH Hx).
Qed.

End IndexMaps.

(** X13 -- the index maps for arbitrary date lists (unsorted, with repeats):
    reading the merged list at the positions of an index map gives the
    distinct dates of that input in increasing order, not the input in its
    own order; the positions are in range and strictly increasing, and there
    are at most as many as dates in the input. *)
Theorem merge_geolists_index_maps (geolist1 geolist2 : list Dates.date) :
  let merged := fst (fst (merge_geolists geolist1 geolist2)) in
  let indices1 := snd (fst (merge_geolists geolist1 geolist2)) in
  let indices2 := snd (merge_geolists geolist1 geolist2) in
  map (fun i => nth i merged 0%Z) indices1 = Dates.unique geolist1 /\
  map (fun i => nth i merged 0%Z) indices2 = Dates.unique geolist2 /\
  Forall (fun i => (i < length merged)%nat) indices1 /\
  Forall (fun i => (i < length merged)%nat) indices2 /\
  StronglySorted Nat.lt indices1 /\ StronglySorted Nat.lt indices2 /\
  (length indices1 <= length geolist1)%nat /\
  (length indices2 <= length geolist2)%nat.
Proof.
  assert (S1 : forall x, In x geolist1 -> In x (Dates.sort (geolist1 ++ geolist2))).
  { intros x Hx. apply DatesFacts.sort_in, in_or_app. now left. }
  assert (S2 : forall x, In x geolist2 -> In x (Dates.sort (geolist1 ++ geolist2))).
  { intros x Hx. apply DatesFacts.sort_in, in_or_app. now right. }
  assert (U1 : forall x, In x (Dates.unique geolist1) ->
                 In x (Dates.sort (geolist1 ++ geolist2))).
  { intros x Hx. apply S1, IndexMaps.unique_in, Hx. }
  assert (U2 : forall x, In x (Dates.unique geolist2) ->
                 In x (Dates.sort (geolist1 ++ geolist2))).
  { intros x Hx. apply S2, IndexMaps.unique_in, Hx. }
  unfold merge_geolists.
  rewrite (IndexMaps.intersect1d_drawn _ geolist1 S1).
  rewrite (IndexMaps.intersect1d_drawn _ geolist2 S2).
  cbn [fst snd].
  destruct (IndexMaps.index_map_reads_back _ _ U1) as [R1 B1].
  destruct (IndexMaps.index_map_reads_back _ _ U2) as [R2 B2].
  repeat split; try assumption.
  - apply IndexMaps.index_map_increasing;
      [apply DatesFacts.sort_sorted | apply IndexMaps.unique_strict | exact U1].
  - apply IndexMaps.index_map_increasing;
      [apply DatesFacts.sort_sorted | apply IndexMaps.unique_strict | exact U2].
  - rewrite length_map. apply IndexMaps.length_unique.
  - rewrite length_map. apply IndexMaps.length_unique.
Qed.

(** X14 -- a date present in both axes (strictly increasing lists): the
    merged list holds it twice, and both index maps send it to the same
    position, that of its first copy. *)
Theorem merge_geolists_shared_date (geolist1 geolist2 : list Dates.date) (i j : nat) :
  StronglySorted Z.lt geolist1 -> StronglySorted Z.lt geolist2 ->
  (i < length geolist1)%nat -> (j < length geolist2)%nat ->
  nth i geolist1 0%Z = nth j geolist2 0%Z ->
  let merged := fst (fst (merge_geolists geolist1 geolist2)) in
  let indices1 := snd (fst (merge_geolists geolist1 geolist2)) in
  let indices2 := snd (merge_geolists geolist1 geolist2) in
  count_occ Z.eq_dec merged (nth i geolist1 0%Z) = 2%nat /\
  nth i indices1 0%nat = nth j indices2 0%nat /\
  (forall p, (p < nth i indices1 0)%nat -> nth p merged 0%Z <> nth i geolist1 0%Z).
Proof.
  intros H1 H2 Hi Hj E.
  assert (S1 : forall x, In x geolist1 -> In x (Dates.sort (geolist1 ++ geolist2))).
  { intros x Hx. apply DatesFacts.sort_in, in_or_app. now left. }
  assert (S2 : forall x, In x geolist2 -> In x (Dates.sort (geolist1 ++ geolist2))).
  { intros x Hx. apply DatesFacts.sort_in, in_or_app. now right. }
  unfold merge_geolists.
  rewrite (DatesFacts.intersect1d_subset _ geolist1 H1 S1).
  rewrite (DatesFacts.intersect1d_subset _ geolist2 H2 S2).
  cbn [fst snd].
  set (merged := Dates.sort (geolist1 ++ geolist2)).
  assert (N1 : nth i (map (fun x => Dates.index_of x merged) geolist1) 0%nat
               = Dates.index_of (nth i geolist1 0%Z) merged).
  { rewrite (nth_indep _ 0%nat (Dates.index_of 0%Z merged)) by (now rewrite length_map).
    apply (map_nth (fun x => Dates.index_of x merged)). }
  assert (N2 : nth j (map (fun x => Dates.index_of x merged) geolist2) 0%nat
               = Dates.index_of (nth j geolist2 0%Z) merged).
  { rewrite (nth_indep _ 0%nat (Dates.index_of 0%Z merged)) by (now rewrite length_map).
    apply (map_nth (fun x => Dates.index_of x merged)). }
  split; [|split].
  - unfold merged.
    rewrite <- (proj1 (Permutation_count_occ Z.eq_dec _ _)
                      (DatesFacts.sort_perm (geolist1 ++ geolist2))).
    rewrite count_occ_app.
    rewrite (IndexMaps.strict_sorted_count geolist1 _ H1) by (apply nth_In, Hi).
    rewrite E.
    rewrite (IndexMaps.strict_sorted_count geolist2 _ H2) by (apply nth_In, Hj).
    reflexivity.
  - now rewrite N1, N2, E.
  - intros p Hp. rewrite N1 in Hp. exact (IndexMaps.index_of_first _ _ _ Hp).
Qed.

Lemma merge_geolists_shared_date_witness :
  count_occ Z.eq_dec (fst (fst (merge_geolists [1; 5; 9]%Z [5; 7]%Z))) 5%Z = 2%nat /\
  nth 1 (snd (fst (merge_geolists [1; 5; 9]%Z [5; 7]%Z))) 0%nat
  = nth 0 (snd (merge_geolists [1; 5; 9]%Z [5; 7]%Z)) 0%nat.
Proof.
  assert (H1 : StronglySorted Z.lt [1; 5; 9]%Z) by (repeat constructor; lia).
  assert (H2 : StronglySorted Z.lt [5; 7]%Z) by (repeat constructor; lia).
  destruct (merge_geolists_shared_date [1; 5; 9]%Z [5; 7]%Z 1 0 H1 H2)
    as (C & P & _); [cbn; lia | cbn; lia | reflexivity |].
  split; [exact C | exact P].
Defined.

(** ** [find_vertical_def]: what the solution satisfies, and its errors *)







(** X17 -- stacks of one shape that is not three-dimensional pass the
    assertion and fail at the unpacking of the shape, with ValueError. *)
Theorem find_vertical_def_needs_3d (eu_asc eu_desc asc_deform desc_deform : ndarray) :
  shape eu_asc = [2%nat] -> shape eu_desc = [2%nat] ->
  shape asc_deform = shape desc_deform ->
  length (shape asc_deform) <> 3%nat ->
  find_vertical_def eu_asc eu_desc asc_deform desc_deform = Raise ValueError.
Proof.
  intros Ha Hd Heq Hrank. unfold find_vertical_def, Linalg.vstack.
  rewrite Ha, Hd. cbn [Nat.eqb bind].
  rewrite <- Heq, shape_eqb_refl. cbn [negb].
  destruct (shape asc_deform) as [|a [|b [|c [|d t]]]]; try reflexivity.
  exfalso. apply Hrank. reflexivity.
Qed.

Lemma find_vertical_def_needs_3d_witness :
  find_vertical_def (of_reals [2]%nat [1; 2]%R) (of_reals [2]%nat [- (1); 2]%R)
    (of_reals [2; 2]%nat [1; 2; 3; 4]%R) (of_reals [2; 2]%nat [5; 6; 7; 8]%R)
  = Raise ValueError.
Proof.
  apply find_vertical_def_needs_3d; try reflexivity. cbn. lia.
Defined.

(** X18 -- coefficient vectors that are not 2-vectors: two vectors of one
    length n other than 2 (for instance full [east, north, up] triples) are
    stacked into a 2 x n matrix, which [np.linalg.solve] refuses with
    LinAlgError as not square. *)
Theorem find_vertical_def_needs_pairs (eu_asc eu_desc asc_deform desc_deform : ndarray)
    (n nlayers nrows ncols : nat) :
  shape eu_asc = [n] -> shape eu_desc = [n] -> n <> 2%nat ->
  shape asc_deform = [nlayers; nrows; ncols] ->
  shape desc_deform = [nlayers; nrows; ncols] ->
  well_formed asc_deform -> well_formed desc_deform ->
  find_vertical_def eu_asc eu_desc asc_deform desc_deform = Raise LinAlgError.
Proof.
  intros Ha Hd Hn Sa Sd Wa Wd. unfold find_vertical_def, Linalg.vstack.
  rewrite Ha, Hd, Nat.eqb_refl. cbn [bind].
  rewrite Sa, Sd, shape_eqb_refl. cbn [negb].
  unfold Linalg.ravel. cbn [shape data].
  unfold well_formed in Wa, Wd. rewrite Wa, Wd, Sa, Sd, Nat.eqb_refl.
  cbn [bind]. unfold Linalg.solve. cbn [shape Nat.add].
  assert (E : Nat.eqb 2 n = false) by (apply Nat.eqb_neq; congruence).
  now rewrite E.
Qed.

Lemma find_vertical_def_needs_pairs_witness :
  find_vertical_def (of_reals [3]%nat [1; 0; 2]%R) (of_reals [3]%nat [- (1); 0; 2]%R)
    (of_reals [1; 1; 2]%nat [13; 16]%R) (of_reals [1; 1; 2]%nat [7; 8]%R)
  = Raise LinAlgError.
Proof.
  apply (find_vertical_def_needs_pairs _ _ _ _ 3 1 1 2); try reflexivity. lia.
Defined.

(** ** [convert_xyz_latlon_to_enu]: a vector of the wrong length *)

Lemma rotate_vector_outcome (xyz : ndarray) (lat lon : npfloat) (m : nat) :
  shape xyz = [m] ->
  (m = 3%nat -> exists out, rotate_xyz_to_enu xyz lat lon = Ok out) /\
  (m <> 3%nat -> rotate_xyz_to_enu xyz lat lon = Raise ValueError).
Proof.
  intros Hs. unfold rotate_xyz_to_enu. rewrite rot_axis3, rot_axis1. cbn [bind].
  unfold Np.matmul. cbn [shape]. rewrite Hs. split.
  - intros ->. cbn [Nat.eqb bind shape]. eexists. reflexivity.
  - intros Hm. assert (E : Nat.eqb 3 m = false) by (apply Nat.eqb_neq; congruence).
    now rewrite E.
Qed.

Lemma mapM_first_failure {A B : Type} (f : A -> result B) (e : exn) (l : list A) :
  Forall (fun x => (exists y, f x = Ok y) \/ f x = Raise e) l ->
  Exists (fun x => f x = Raise e) l ->
  mapM f l = Raise e.
Proof.
  induction 1 as [|x t Hx _ IH]; intros Hex; [inversion Hex|].
  cbn [mapM]. destruct Hx as [(y & Hy) | Hx].
  - rewrite Hy. cbn [bind].
    inversion Hex as [? ? Hbad | ? ? Hrest]; subst; [congruence|].
    now rewrite (IH Hrest).
  - now rewrite Hx.
Qed.

(** X19 -- no partial result: when the paired sequences hold one-dimensional
    vectors and one of the vectors that [zip] reaches does not have three
    components, the whole batch conversion fails with ValueError, whatever
    the other vectors and the points are. *)
Theorem convert_xyz_latlon_to_enu_bad_vector
    (lat_lons : list (npfloat * npfloat)) (xyz_array : list ndarray) :
  Forall (fun a => exists m, shape a = [m]) xyz_array ->
  Exists (fun p => shape (snd p) <> [3%nat]) (combine lat_lons xyz_array) ->
  convert_xyz_latlon_to_enu lat_lons xyz_array = Raise ValueError.
Proof.
  intros H1d Hbad. unfold convert_xyz_latlon_to_enu.
  rewrite (mapM_first_failure _ ValueError); [reflexivity| |].
  - rewrite Forall_forall. intros [[lat lon] xyz] Hin.
    apply in_combine_r in Hin. rewrite Forall_forall in H1d.
    destruct (H1d xyz Hin) as (m & Hm).
    destruct (rotate_vector_outcome xyz lat lon m Hm) as [Hok Herr].
    destruct (Nat.eq_dec m 3) as [E|N]; [left; exact (Hok E)|right; exact (Herr N)].
  - apply Exists_exists in Hbad. destruct Hbad as ([[lat lon] xyz] & Hin & Hs).
    apply Exists_exists. exists ((lat, lon), xyz). split; [exact Hin|].
    cbn [snd] in Hs. rewrite Forall_forall in H1d.
    destruct (H1d xyz (in_combine_r _ _ _ _ Hin)) as (m & Hm).
    apply (rotate_vector_outcome xyz lat lon m Hm). congruence.
Qed.

Lemma convert_xyz_latlon_to_enu_bad_vector_witness :
  convert_xyz_latlon_to_enu [(Fin 0, Fin 0); (Fin 10, Fin 20)]
    [of_reals [3]%nat [1; 0; 0]%R; of_reals [2]%nat [1; 0]%R]
  = Raise ValueError.
Proof.
  apply convert_xyz_latlon_to_enu_bad_vector.
  - repeat constructor; eexists; reflexivity.
  - right. left. cbn. discriminate.
Defined.

(** ** Projection followed by decomposition *)





